(** * TwitterBot: a shallow embedding of [twitter_bot.py]

    The class [TwitterBot] keeps two flat files (a cursor holding the id of
    the last processed mention and a JSON quota store), appends to a log
    file, calls the platform API, and has a few pure helpers on text.

    The embedding threads an explicit [World] (the two files and the log)
    through a small state-and-exception monad.  Python [str] is modelled
    as [string], read as a sequence of code points below 256 ([lower],
    [strip] and [int] act on them as Python does; texts with other code
    points are outside the model), Python [int] as [Z], a Python [dict] as
    an association list in insertion order.  The conversions between [int]
    and [str] obey the digit limit of the interpreter (CPython 3.11,
    [sys.int_info.default_max_str_digits], 4300 digits): beyond it [str(n)]
    and [int(s)] raise [ValueError].  The quota file is modelled by the JSON
    document it holds: [json.loads] and [json.dumps] are taken as inverse
    to each other on documents without floating-point numbers whose
    integers are within that limit ([file_within_limit]); [json.dumps]
    raises [ValueError] on an integer beyond it, once the file is open for
    writing.  A quota file whose text has a longer integer, which
    [json.loads] does not read, is outside the model, like one with a
    floating-point number; no operation writes one
    ([update_validation_data_within_limit]).  Opening a file for writing
    is taken to succeed (the directory [validation_data] exists and is
    writable). *)

From Stdlib Require Import ZArith List String Ascii Bool Lia.
From Stdlib Require Import Decimal DecimalString DecimalZ.
Import ListNotations.
Set Warnings "-register-all".
Local Open Scope string_scope.
Local Open Scope Z_scope.

(** ** Python built-ins on [str] and [int] *)

Module Py.

(** [str.isspace] on one character: TAB, LF, VT, FF, CR, the separators
    FS, GS, RS, US, the space, NEL and the no-break space. *)
Definition is_space (c : ascii) : bool :=
  let n := Z.of_nat (nat_of_ascii c) in
  ((9 <=? n) && (n <=? 13)) || ((28 <=? n) && (n <=? 31)) || (n =? 32)
  || (n =? 133) || (n =? 160).

(** The white space [int] skips around a number: that of [str.isspace]
    without the four separators. *)
Definition is_int_space (c : ascii) : bool :=
  let n := Z.of_nat (nat_of_ascii c) in
  ((9 <=? n) && (n <=? 13)) || (n =? 32) || (n =? 133) || (n =? 160).

Definition is_digit (c : ascii) : bool :=
  let n := Z.of_nat (nat_of_ascii c) in (48 <=? n) && (n <=? 57).

Definition digit_value (c : ascii) : Z := Z.of_nat (nat_of_ascii c) - 48.

Definition is_empty (s : string) : bool :=
  match s with EmptyString => true | String _ _ => false end.

Fixpoint lstrip (s : string) : string :=
  match s with
  | EmptyString => EmptyString
  | String c r => if is_space c then lstrip r else s
  end.

Fixpoint rstrip (s : string) : string :=
  match s with
  | EmptyString => EmptyString
  | String c r =>
      let r' := rstrip r in
      if is_space c && is_empty r' then EmptyString else String c r'
  end.

(** [s.strip()] *)
Definition strip (s : string) : string := rstrip (lstrip s).

Fixpoint int_lstrip (s : string) : string :=
  match s with
  | EmptyString => EmptyString
  | String c r => if is_int_space c then int_lstrip r else s
  end.

Fixpoint int_rstrip (s : string) : string :=
  match s with
  | EmptyString => EmptyString
  | String c r =>
      let r' := int_rstrip r in
      if is_int_space c && is_empty r' then EmptyString else String c r'
  end.

(** The text [int] reads once the white space around it is skipped. *)
Definition int_strip (s : string) : string := int_rstrip (int_lstrip s).

(** [sys.int_info.default_max_str_digits]: the most digits a conversion
    between [int] and [str] takes. *)
Definition max_str_digits : Z := 4300.

(** The decimal text of [n]: an optional minus sign and the digits.  It is
    what [str(n)] returns when it returns, see [str_int]. *)
Definition str_of_int (n : Z) : string :=
  NilZero.string_of_int (Z.to_int n).

(** The decimal text of [n] has, without its sign, no more digits than
    the limit. *)
Definition within_limit (n : Z) : bool :=
  Z.of_nat (String.length (str_of_int (Z.abs n))) <=? max_str_digits.

(** [str(n)] for an [int].  [None] stands for the [ValueError] raised when
    [n] has more digits than the limit. *)
Definition str_int (n : Z) : option string :=
  if within_limit n then Some (str_of_int n) else None.

(** The digits of [int(s)]: decimal digits, single underscores allowed
    between two digits only.  [prev] records that the previous character
    was a digit. *)
Fixpoint digits_value (s : string) (acc : Z) (prev : bool) : option Z :=
  match s with
  | EmptyString => if prev then Some acc else None
  | String c r =>
      if is_digit c then digits_value r (acc * 10 + digit_value c) true
      else if Ascii.eqb c "_" && prev then digits_value r acc false
      else None
  end.

(** The number of digits of a text. *)
Fixpoint count_digits (s : string) : Z :=
  match s with
  | EmptyString => 0
  | String c r => (if is_digit c then 1 else 0) + count_digits r
  end.

(** A text without the sign it may start with. *)
Definition unsigned_part (t : string) : string :=
  match t with
  | EmptyString => EmptyString
  | String c r => if Ascii.eqb c "+" || Ascii.eqb c "-" then r else t
  end.

(** An optional sign and the digits. *)
Definition parse_int (t : string) : option Z :=
  match t with
  | EmptyString => None
  | String c r =>
      if Ascii.eqb c "+" then digits_value r 0 false
      else if Ascii.eqb c "-" then option_map Z.opp (digits_value r 0 false)
      else digits_value (String c r) 0 false
  end.

(** [int(s)] for a [str]: surrounding white space is skipped, then come an
    optional sign and the digits, no more of them than the limit (leading
    zeros count, underscores do not).  [None] stands for [ValueError],
    which is raised for a text that is no number and for one with too
    many digits alike. *)
Definition int_of_str (s : string) : option Z :=
  let t := int_strip s in
  if max_str_digits <? count_digits (unsigned_part t) then None
  else parse_int t.

(** [c.lower()] on one character: the letters A to Z and the capital
    letters of Latin-1 (all of U+00C0 to U+00DE but the multiplication
    sign) move 32 places up. *)
Definition lower_char (c : ascii) : ascii :=
  let n := nat_of_ascii c in
  if (((65 <=? n) && (n <=? 90)) ||
      ((192 <=? n) && (n <=? 222) && negb (n =? 215)))%nat
  then ascii_of_nat (n + 32) else c.

(** [s.lower()] *)
Fixpoint lower (s : string) : string :=
  match s with
  | EmptyString => EmptyString
  | String c r => String (lower_char c) (lower r)
  end.

(** [needle in hay] for two [str]: [needle] occurs as a substring. *)
Fixpoint contains (needle hay : string) : bool :=
  String.prefix needle hay ||
  match hay with
  | EmptyString => false
  | String _ r => contains needle r
  end.

End Py.

(** ** Exceptions, the world and the monad *)

Inductive exn : Type :=
| FileNotFoundError
| ValueError
| JSONDecodeError
| KeyError
| TypeError
| AttributeError
| APIError (what : string).

Inductive result (A : Type) : Type :=
| Ok (a : A)
| Raise (e : exn).
Arguments Ok {A} a.
Arguments Raise {A} e.

(** A JSON document as [json.loads] returns it. *)
Inductive json : Type :=
| JNull
| JBool (b : bool)
| JInt (n : Z)
| JStr (s : string)
| JList (l : list json)
| JDict (d : list (string * json)).

(** What a path of the file system holds. *)
Inductive file (A : Type) : Type :=
| Missing
| Holds (a : A).
Arguments Missing {A}.
Arguments Holds {A} a.

Inductive level : Type := INFO | ERROR.

Record World : Type := mkWorld {
  cursor_file : file string;         (* validation_data/last_seen_tweet_id.txt *)
  quota_file : file (option json);   (* validation_data/users_data.json;
                                        [Some j]: [json.loads] reads [j],
                                        [None]: the text is not JSON *)
  log : list (level * string)        (* logs/twitter_bot_<date>.log, oldest first *)
}.

Definition M (A : Type) : Type := World -> result A * World.

Definition ret {A} (a : A) : M A := fun w => (Ok a, w).

Definition bind {A B} (m : M A) (k : A -> M B) : M B :=
  fun w => match m w with
           | (Ok a, w') => k a w'
           | (Raise e, w') => (Raise e, w')
           end.

Definition raise {A} (e : exn) : M A := fun w => (Raise e, w).

(** [try: body except: handler] with a bare [except]. *)
Definition try_except {A} (body handler : M A) : M A :=
  fun w => match body w with
           | (Ok a, w') => (Ok a, w')
           | (Raise _, w') => handler w'
           end.

Definition lift_option {A} (e : exn) (o : option A) : M A :=
  match o with Some a => ret a | None => raise e end.

Declare Scope py_scope.
Delimit Scope py_scope with py.
Notation "x <- m ;; k" := (bind m (fun x => k))
  (at level 61, m at next level, right associativity) : py_scope.
Notation "m ;;; k" := (bind m (fun _ => k))
  (at level 61, right associativity) : py_scope.
Local Open Scope py_scope.

Definition logging (lv : level) (msg : string) : M unit :=
  fun w => (Ok tt, mkWorld (cursor_file w) (quota_file w) (log w ++ [(lv, msg)])).

Definition read_cursor_file : M string :=
  fun w => match cursor_file w with
           | Holds s => (Ok s, w)
           | Missing => (Raise FileNotFoundError, w)
           end.

Definition write_cursor_file (s : string) : M unit :=
  fun w => (Ok tt, mkWorld (Holds s) (quota_file w) (log w)).

(** [json.loads(f.read())] on the quota file. *)
Definition load_quota_file : M json :=
  fun w => match quota_file w with
           | Holds (Some j) => (Ok j, w)
           | Holds None => (Raise JSONDecodeError, w)
           | Missing => (Raise FileNotFoundError, w)
           end.

(** The documents [json.dumps] converts: every integer has no more digits
    than the limit of [str]. *)
Fixpoint json_within_limit (j : json) : bool :=
  match j with
  | JInt n => Py.within_limit n
  | JList l => forallb json_within_limit l
  | JDict d => forallb (fun kv => json_within_limit (snd kv)) d
  | _ => true
  end.

(** [with open(path, "w") as f: f.write(json.dumps(j))] on the quota
    file.  The file is opened, and emptied, before [json.dumps] runs;
    [json.dumps] raises [ValueError] on an integer beyond the digit limit,
    and the file then stays empty, which is no JSON text. *)
Definition dump_quota_file (j : json) : M unit :=
  fun w =>
    if json_within_limit j
    then (Ok tt, mkWorld (cursor_file w) (Holds (Some j)) (log w))
    else (Raise ValueError, mkWorld (cursor_file w) (Holds None) (log w)).

(** ** Cursor store *)

Definition get_last_seen_tweet_id : M Z :=
  logging INFO "Retrieing last seen tweet ID" ;;;
  s <- read_cursor_file ;;
  last_seen_id <- lift_option ValueError (Py.int_of_str (Py.strip s)) ;;
  (* the f-string formats the number as [str] does *)
  shown <- lift_option ValueError (Py.str_int last_seen_id) ;;
  logging INFO ("last seen id: " ++ shown) ;;;
  ret last_seen_id.

(** [open(path, "w")] empties the file before anything is written; the
    text to write, [str(last_seen_tweet_id)], is computed after that. *)
Definition store_last_seen_tweet_id (last_seen_tweet_id : Z) : M unit :=
  logging INFO "Storing last seen tweet ID" ;;;
  write_cursor_file "" ;;;
  s <- lift_option ValueError (Py.str_int last_seen_tweet_id) ;;
  write_cursor_file s.

(** ** Python dictionaries: association lists in insertion order *)

Section Dict.
Context {V : Type}.

(** [d.keys()] *)
Definition dict_keys (d : list (string * V)) : list string := map fst d.

(** [d[k]], [None] when the key is absent *)
Fixpoint dict_get (k : string) (d : list (string * V)) : option V :=
  match d with
  | [] => None
  | (k', v) :: r => if String.eqb k k' then Some v else dict_get k r
  end.

(** [d[k] = v]: the value is replaced where the key stands, a new key goes
    to the end. *)
Fixpoint dict_set (k : string) (v : V) (d : list (string * V))
  : list (string * V) :=
  match d with
  | [] => [(k, v)]
  | (k', v') :: r =>
      if String.eqb k k' then (k', v) :: r else (k', v') :: dict_set k v r
  end.

(** [{**a, **b}] *)
Definition dict_merge (a b : list (string * V)) : list (string * V) :=
  fold_left (fun acc kv => dict_set (fst kv) (snd kv) acc) b a.
End Dict.

(** ** Quota store *)

(** The argument [user_id]: annotated [str], the platform's author ids are
    [int]; the code goes through [str(user_id)] in both cases.  An [int]
    stands here for an id that [str] converts. *)
Inductive user_id_t : Type :=
| UidStr (s : string)
| UidInt (n : Z).

Definition str_of_user_id (u : user_id_t) : string :=
  match u with
  | UidStr s => s
  | UidInt n => Py.str_of_int n
  end.

(** [j.keys()] *)
Definition json_keys (j : json) : M (list string) :=
  match j with
  | JDict d => ret (dict_keys d)
  | _ => raise AttributeError
  end.

(** [j[k]] with a [str] key *)
Definition json_getitem (j : json) (k : string) : M json :=
  match j with
  | JDict d => lift_option KeyError (dict_get k d)
  | _ => raise TypeError
  end.

(** [j[k] = v] with a [str] key *)
Definition json_setitem (j : json) (k : string) (v : json) : M json :=
  match j with
  | JDict d => ret (JDict (dict_set k v d))
  | _ => raise TypeError
  end.

(** [int(j)] *)
Definition json_int (j : json) : M Z :=
  match j with
  | JInt n => ret n
  | JBool b => ret (if b then 1 else 0)
  | JStr s => lift_option ValueError (Py.int_of_str s)
  | _ => raise TypeError
  end.

(** [j + 1] *)
Definition json_add_one (j : json) : M json :=
  match j with
  | JInt n => ret (JInt (n + 1))
  | JBool b => ret (JInt ((if b then 1 else 0) + 1))
  | _ => raise TypeError
  end.

Definition validate_user (user_id : user_id_t) : M bool :=
  logging INFO "Validating user" ;;;
  users_data <- load_quota_file ;;
  keys <- json_keys users_data ;;
  if existsb (String.eqb (str_of_user_id user_id)) keys then
    record <- json_getitem users_data (str_of_user_id user_id) ;;
    user_requests <- json_getitem record "requests" ;;
    n <- json_int user_requests ;;
    if n >=? 5 then ret false else ret true
  else ret true.

Definition update_validation_data (user_id : user_id_t) : M unit :=
  logging INFO "Updating validation data" ;;;
  users_data <- load_quota_file ;;
  keys <- json_keys users_data ;;
  users_data' <-
    (if existsb (String.eqb (str_of_user_id user_id)) keys then
       (* users_data[str(user_id)]['requests'] += 1, on the shared record *)
       record <- json_getitem users_data (str_of_user_id user_id) ;;
       old <- json_getitem record "requests" ;;
       new <- json_add_one old ;;
       record' <- json_setitem record "requests" new ;;
       json_setitem users_data (str_of_user_id user_id) record'
     else
       match users_data with
       | JDict d =>
           let new_user_data :=
             [(str_of_user_id user_id, JDict [("requests", JInt 1)])] in
           ret (JDict (dict_merge d new_user_data))
       | _ => raise TypeError
       end) ;;
  dump_quota_file users_data'.

(** ** Platform API and the mention fetcher *)

Record Tweet : Type := mkTweet {
  tweet_id : Z;
  author_id : Z;
  text : string
}.

Record User : Type := mkUser {
  user_id : Z;
  username : string
}.

(** The response object of the client library: [data] may be [None],
    [includes] is a dictionary. *)
Record Response : Type := mkResponse {
  data : option (list Tweet);
  includes : list (string * list User)
}.

(** The client handle [api_v2].  Each endpoint answers or raises: the
    mentions of a bot id after a [since_id], the tweets of a user id up
    to [max_results], and the posting of a text in reply to a tweet id. *)
Record Client : Type := mkClient {
  get_users_mentions : string -> Z -> result Response;
  get_users_tweets : user_id_t -> Z -> result Response;
  create_tweet : string -> string -> result unit
}.

Record TwitterBot : Type := mkTwitterBot {
  bot_id : string;
  stop_words : list string;
  api_v2 : Client
}.

Definition lift_result {A} (r : result A) : M A :=
  match r with Ok a => ret a | Raise e => raise e end.

Definition get_mentions (self : TwitterBot)
  : M (option (list Tweet) * list User) :=
  logging INFO "Retrieving mentions" ;;;
  last_seen_tweet_id <- get_last_seen_tweet_id ;;
  try_except
    (mentions <- lift_result (get_users_mentions (api_v2 self) (bot_id self)
                                              last_seen_tweet_id) ;;
     let mentions_data := data mentions in
     users_metadata <- lift_option KeyError (dict_get "users" (includes mentions)) ;;
     ret (mentions_data, users_metadata))
    (logging ERROR "Couldn't retrieve mentions" ;;;
     ret (Some [], [])).

Definition fetch_tweets (self : TwitterBot) (user_id : user_id_t)
  : M (option (list Tweet)) :=
  logging INFO "Fetching tweets" ;;;
  tweets <- lift_result (get_users_tweets (api_v2 self) user_id 100) ;;
  let tweets := data tweets in
  ret tweets.

Definition reply_with_limit_reached (self : TwitterBot)
  (tweet_id user_screen_name : string) : M unit :=
  logging INFO "Replying with limit reached message" ;;;
  let reply_text :=
    "Hi " ++ user_screen_name
    ++ ", Sorry, but you've reached your daily limit of "
    ++ "5 requests per day. "
    ++ "Please try again tomorrow." in
  lift_result (create_tweet (api_v2 self) reply_text tweet_id).

Definition bot_handler (self : TwitterBot) : M unit := ret tt.

(** ** Tokenizer *)

(** [string.punctuation] of the Python standard library. *)
Definition punctuation : string :=
  String "!" (String "034"%char "#$%&'()*+,-./:;<=>?@[\]^_`{|}~").

(** [list(s)] for a [str]: its characters as one-character strings. *)
Fixpoint list_of_str (s : string) : list string :=
  match s with
  | EmptyString => []
  | String c r => String c EmptyString :: list_of_str r
  end.

(** [word in words] for a list of [str] *)
Definition str_in (word : string) (words : list string) : bool :=
  existsb (String.eqb word) words.

(** The stop words as [__init__] builds them: the English stop words of
    the NLP library extended by the punctuation symbols. *)
Definition init_stop_words (english : list string) : list string :=
  (english ++ list_of_str punctuation)%list.

Section Tokenizer.

(** [nltk.tokenize.casual.casual_tokenize(text, preserve_case, reduce_len,
    strip_handles)], the tokenizer of the NLP library. *)
Variable casual_tokenize : string -> bool -> bool -> bool -> list string.

Definition preprocess_and_tokenize_tweets (self : TwitterBot)
  (tweets : list Tweet) : list string :=
  fold_left
    (fun all_words tweet =>
       let tweet_text := text tweet in
       let words := casual_tokenize tweet_text false true true in
       let words :=
         filter (fun word => negb (str_in word (stop_words self))) words in
       (all_words ++ words)%list)
    tweets [].

End Tokenizer.

(** ** Input validation *)

(** The values [required_input] can take. *)
Inductive pyval : Type :=
| PNone
| PBool (b : bool)
| PInt (n : Z)
| PStr (s : string)
| PList (l : list pyval).

(** [a == b] *)
Fixpoint py_eqb (a b : pyval) : bool :=
  match a, b with
  | PNone, PNone => true
  | PBool x, PBool y => Bool.eqb x y
  | PBool x, PInt n => (if x then 1 else 0) =? n
  | PInt n, PBool x => n =? (if x then 1 else 0)
  | PInt n, PInt m => n =? m
  | PStr s, PStr t => String.eqb s t
  | PList l, PList m =>
      (fix all2 (l m : list pyval) : bool :=
         match l, m with
         | [], [] => true
         | x :: l', y :: m' => py_eqb x y && all2 l' m'
         | _, _ => false
         end) l m
  | _, _ => false
  end.

(** [x in l] for a list: some element is [x] or equals it. *)
Definition py_in (x : pyval) (l : list pyval) : bool := existsb (py_eqb x) l.

(** [str(tweet_text)] where [tweet_text] is a [str] or [None]. *)
Definition str_of_opt (tweet_text : option string) : string :=
  match tweet_text with
  | Some s => s
  | None => "None"
  end.

(** The [for] loop of [validate_input] over [rest], the whole list being
    [required_input]. *)
Fixpoint validate_input_loop (required_input rest : list pyval) : bool :=
  match rest with
  | [] => false
  | r_input :: rest' =>
      if py_in r_input required_input then true
      else validate_input_loop required_input rest'
  end.

(** The result is [None] where the Python function falls off its end. *)
Definition validate_input (required_input : pyval)
  (tweet_text : option string) : option bool :=
  let tweet_text := Py.lower (str_of_opt tweet_text) in
  match required_input with
  | PList l => Some (validate_input_loop l l)
  | PStr s => if Py.contains s tweet_text then Some true else Some false
  | _ => None
  end.

(** ** Parameter extractor *)

(** The inner [for value in params_dict[param]] with its [break]. *)
Fixpoint scan_values (tweet_text param : string) (values : list string)
  (params : list (string * string)) : list (string * string) :=
  match values with
  | [] => params
  | value :: rest =>
      if Py.contains value tweet_text then dict_set param value params
      else scan_values tweet_text param rest params
  end.

(** The outer [for param in params_dict.keys()]. *)
Fixpoint scan_params (tweet_text : string)
  (params_dict : list (string * list string)) (keys : list string)
  (params : list (string * string)) : result (list (string * string)) :=
  match keys with
  | [] => Ok params
  | param :: rest =>
      match dict_get param params_dict with
      | Some values =>
          scan_params tweet_text params_dict rest
                      (scan_values tweet_text param values params)
      | None => Raise KeyError
      end
  end.

Definition get_params_from_tweet (tweet_text : string)
  (params_dict : list (string * list string))
  : M (list (string * string)) :=
  logging INFO "Extracting parameters from tweet" ;;;
  let params := [] in
  let tweet_text := Py.lower tweet_text in
  lift_result (scan_params tweet_text params_dict (dict_keys params_dict) params).

(** The parameter extractor in the words of its description: for each
    declared parameter, in order, the first allowed value that occurs in
    the lower-cased text; a parameter without such a value is left out. *)
Definition first_allowed (lowered : string) (values : list string)
  : option string :=
  find (fun value => Py.contains value lowered) values.

Definition extract_params (text : string)
  (params_spec : list (string * list string)) : list (string * string) :=
  flat_map
    (fun entry =>
       match first_allowed (Py.lower text) (snd entry) with
       | Some value => [(fst entry, value)]
       | None => []
       end)
    params_spec.

(** The bot as [__init__] leaves it: the id, the stop words and the
    client handle. *)
Definition init_bot (bot_id : string) (english : list string)
  (api : Client) : TwitterBot :=
  mkTwitterBot bot_id (init_stop_words english) api.

(** ** The operations of the class on the world *)

Inductive op : Type :=
| GetLastSeenTweetId
| StoreLastSeenTweetId (last_seen_tweet_id : Z)
| ValidateUser (user_id : user_id_t)
| UpdateValidationData (user_id : user_id_t)
| GetMentions
| FetchTweets (user_id : user_id_t)
| ReplyWithLimitReached (tweet_id user_screen_name : string)
| GetParamsFromTweet (tweet_text : string)
                     (params_dict : list (string * list string))
| BotHandler.

(** The world after one call, whether it returned or raised. *)
Definition run_op (self : TwitterBot) (o : op) (w : World) : World :=
  match o with
  | GetLastSeenTweetId => snd (get_last_seen_tweet_id w)
  | StoreLastSeenTweetId x => snd (store_last_seen_tweet_id x w)
  | ValidateUser u => snd (validate_user u w)
  | UpdateValidationData u => snd (update_validation_data u w)
  | GetMentions => snd (get_mentions self w)
  | FetchTweets u => snd (fetch_tweets self u w)
  | ReplyWithLimitReached t n => snd (reply_with_limit_reached self t n w)
  | GetParamsFromTweet t d => snd (get_params_from_tweet t d w)
  | BotHandler => snd (bot_handler self w)
  end.

Definition run_ops (self : TwitterBot) (ops : list op) (w : World) : World :=
  fold_left (fun w o => run_op self o w) ops w.

(** ** What the quota store records *)

(** The record of a key in the quota file. *)
Definition record_of (k : string) (q : file (option json)) : option json :=
  match q with
  | Holds (Some (JDict d)) => dict_get k d
  | _ => None
  end.





(** ** Notions used in the statements *)

(** No character of the text is white space. *)
Fixpoint no_space (s : string) : bool :=
  match s with
  | EmptyString => true
  | String c r => negb (Py.is_space c) && no_space r
  end.

(** The value of a digit sequence read from the left, starting at [acc]. *)
Fixpoint uint_value (u : Decimal.uint) (acc : Z) : Z :=
  match u with
  | Nil => acc
  | D0 l => uint_value l (acc * 10 + 0)
  | D1 l => uint_value l (acc * 10 + 1)
  | D2 l => uint_value l (acc * 10 + 2)
  | D3 l => uint_value l (acc * 10 + 3)
  | D4 l => uint_value l (acc * 10 + 4)
  | D5 l => uint_value l (acc * 10 + 5)
  | D6 l => uint_value l (acc * 10 + 6)
  | D7 l => uint_value l (acc * 10 + 7)
  | D8 l => uint_value l (acc * 10 + 8)
  | D9 l => uint_value l (acc * 10 + 9)
  end.

(** The world with one more line in the log. *)
Definition logged (w : World) (lv : level) (msg : string) : World :=
  mkWorld (cursor_file w) (quota_file w) (log w ++ [(lv, msg)]).





(** The record [update_validation_data] creates for a new user. *)
Definition new_record : json := JDict [("requests", JInt 1)].

(** The world once [get_mentions] has read the cursor [n]. *)
Definition cursor_read (w : World) (n : Z) : World :=
  logged (logged (logged w INFO "Retrieving mentions")
                 INFO "Retrieing last seen tweet ID")
         INFO ("last seen id: " ++ Py.str_of_int n).

(** What the [except] branch of [get_mentions] leaves. *)
Definition mentions_failed (w1 : World)
  : result (option (list Tweet) * list User) * World :=
  (Ok (Some [], []), logged w1 ERROR "Couldn't retrieve mentions").

(** ** Notions used in the further statements *)

(** Every character of the text is white space. *)
Fixpoint all_space (s : string) : bool :=
  match s with
  | EmptyString => true
  | String c r => Py.is_space c && all_space r
  end.

(** An ASCII capital letter. *)
Definition is_upper (c : ascii) : bool :=
  let n := nat_of_ascii c in ((65 <=? n) && (n <=? 90))%nat.

(** The text has an ASCII capital letter. *)
Fixpoint has_upper (s : string) : bool :=
  match s with
  | EmptyString => false
  | String c r => is_upper c || has_upper r
  end.

(** The operations that write the cursor file, and those that write the
    quota file. *)
Definition writes_cursor (o : op) : bool :=
  match o with
  | StoreLastSeenTweetId _ => true
  | _ => false
  end.

Definition writes_quota (o : op) : bool :=
  match o with
  | UpdateValidationData _ => true
  | _ => false
  end.

(** The text [reply_with_limit_reached] posts for a screen name. *)
Definition limit_reached_text (user_screen_name : string) : string :=
  "Hi " ++ user_screen_name
  ++ ", Sorry, but you've reached your daily limit of 5 requests per day. Please try again tomorrow.".

(** What holds of every parameter returned for the lower-cased text
    [lowered]. *)
Definition selected (lowered : string)
  (params_dict : list (string * list string)) (kv : string * string) : Prop :=
  (exists values,
      dict_get (fst kv) params_dict = Some values /\ In (snd kv) values) /\
  Py.contains (snd kv) lowered = true.

(** ** Worlds and bots of the examples *)

(** A store holding the given records, next to a cursor file. *)
Definition store_world (d : list (string * json)) : World :=
  mkWorld (Holds "1500") (Holds (Some (JDict d))) [].

(** The quota file is the empty object, there is no cursor file yet. *)
Definition no_cursor_world : World :=
  mkWorld Missing (Holds (Some (JDict []))) [].

(** The least number [str] does not convert: 1 followed by 4300 zeros. *)
Definition beyond_limit_id : Z := 10 ^ Py.max_str_digits.



(** A client whose endpoints all fail. *)
Definition failing_client : Client :=
  mkClient (fun _ _ => Raise (APIError "503 Service Unavailable"))
           (fun _ _ => Raise (APIError "503 Service Unavailable"))
           (fun _ _ => Raise (APIError "503 Service Unavailable")).

(** A client with one mention by one user. *)
Definition answering_client : Client :=
  let response :=
    mkResponse (Some [mkTweet 1501 42 "@bot a black sketch please"])
               [("users", [mkUser 42 "alice"])] in
  mkClient (fun _ _ => Ok response)
           (fun _ _ => Ok response)
           (fun _ _ => Ok tt).

(** A client that finds no mention: no data and nothing included. *)
Definition quiet_client : Client :=
  let response := mkResponse None [] in
  mkClient (fun _ _ => Ok response)
           (fun _ _ => Ok response)
           (fun _ _ => Ok tt).

Definition example_bot (api : Client) : TwitterBot :=
  init_bot "1234" ["the"; "a"; "is"] api.

(** [n] requests of one user, one after the other. *)
Fixpoint record_requests (n : nat) (u : user_id_t) (w : World) : World :=
  match n with
  | O => w
  | S n' => record_requests n' u (snd (update_validation_data u w))
  end.

(** * Properties *)

(** ** The monad computes *)

Lemma bind_ok {A B} (m : M A) (k : A -> M B) w a w' :
  m w = (Ok a, w') -> bind m k w = k a w'.
Proof. intros H. unfold bind. now rewrite H. Qed.

Lemma bind_raise {A B} (m : M A) (k : A -> M B) w e w' :
  m w = (Raise e, w') -> bind m k w = (Raise e, w').
Proof. intros H. unfold bind. now rewrite H. Qed.

(** ** Decimal text of an integer *)

Module PyFacts.

Lemma lstrip_no_space s : no_space s = true -> Py.lstrip s = s.
Proof.
  destruct s as [|c r]; simpl; [reflexivity|].
  intros H. apply andb_true_iff in H as [Hc _].
  apply negb_true_iff in Hc. now rewrite Hc.
Qed.

Lemma rstrip_no_space s : no_space s = true -> Py.rstrip s = s.
Proof.
  induction s as [|c r IH]; simpl; [reflexivity|].
  intros H. apply andb_true_iff in H as [Hc Hr].
  apply negb_true_iff in Hc. rewrite Hc, (IH Hr). reflexivity.
Qed.

Lemma strip_no_space s : no_space s = true -> Py.strip s = s.
Proof.
  intros H. unfold Py.strip. rewrite (lstrip_no_space s H).
  now apply rstrip_no_space.
Qed.

Lemma no_space_uint u : no_space (NilEmpty.string_of_uint u) = true.
Proof. induction u; simpl; auto. Qed.

Lemma no_space_str_of_int n : no_space (Py.str_of_int n) = true.
Proof.
  unfold Py.str_of_int, NilZero.string_of_int, NilZero.string_of_uint.
  destruct (Z.to_int n) as [u|u]; destruct u; simpl;
    try reflexivity; apply no_space_uint.
Qed.

Lemma digits_value_uint u acc prev :
  Py.digits_value (NilEmpty.string_of_uint u) acc prev =
  match u with
  | Nil => if prev then Some acc else None
  | _ => Some (uint_value u acc)
  end.
Proof.
  revert acc prev.
  induction u; intros acc prev; simpl; try reflexivity;
    rewrite IHu; destruct u; reflexivity.
Qed.

Lemma uint_value_acc u p :
  uint_value u (Z.pos p) = Z.pos (Pos.of_uint_acc u p).
Proof.
  revert p. induction u; intros p; cbn [uint_value Pos.of_uint_acc];
    try reflexivity; rewrite <- IHu; f_equal; lia.
Qed.

Lemma uint_value_of_uint u : uint_value u 0 = Z.of_N (Pos.of_uint u).
Proof.
  induction u; cbn [uint_value Pos.of_uint Z.of_N];
    try reflexivity; try exact IHu;
    rewrite <- uint_value_acc; f_equal.
Qed.

Lemma digits_value_pos p :
  Py.digits_value (NilEmpty.string_of_uint (Pos.to_uint p)) 0 false =
  Some (Z.pos p).
Proof.
  rewrite digits_value_uint.
  pose proof (DecimalPos.Unsigned.to_uint_nonnil p) as Hnil.
  pose proof (DecimalPos.Unsigned.of_to p) as Hof.
  destruct (Pos.to_uint p) eqn:E; try congruence;
    rewrite uint_value_of_uint, Hof; reflexivity.
Qed.

Lemma string_of_uint_pos p :
  NilZero.string_of_uint (Pos.to_uint p) =
  NilEmpty.string_of_uint (Pos.to_uint p).
Proof.
  pose proof (DecimalPos.Unsigned.to_uint_nonnil p) as Hnil.
  unfold NilZero.string_of_uint. destruct (Pos.to_uint p); congruence.
Qed.

(** A non-empty digit text does not start with a sign. *)
Lemma parse_int_uint u :
  u <> Nil ->
  Py.parse_int (NilEmpty.string_of_uint u) =
  Py.digits_value (NilEmpty.string_of_uint u) 0 false.
Proof. intros Hnil. destruct u; try congruence; reflexivity. Qed.

Lemma unsigned_part_uint u :
  Py.unsigned_part (NilEmpty.string_of_uint u) = NilEmpty.string_of_uint u.
Proof. destruct u; reflexivity. Qed.

(** Read without regard to the digit limit, the decimal text of [n] is
    [n]. *)
Lemma parse_int_str_of_int n : Py.parse_int (Py.str_of_int n) = Some n.
Proof.
  unfold Py.str_of_int.
  destruct n as [|p|p]; cbn [Z.to_int NilZero.string_of_int];
    try reflexivity.
  - rewrite string_of_uint_pos.
    rewrite parse_int_uint by apply DecimalPos.Unsigned.to_uint_nonnil.
    apply digits_value_pos.
  - rewrite string_of_uint_pos.
    change (option_map Z.opp
              (Py.digits_value (NilEmpty.string_of_uint (Pos.to_uint p)) 0 false)
            = Some (Z.neg p)).
    rewrite digits_value_pos. reflexivity.
Qed.

Lemma str_of_int_pos p :
  Py.str_of_int (Z.pos p) = NilEmpty.string_of_uint (Pos.to_uint p).
Proof.
  unfold Py.str_of_int. cbn [Z.to_int NilZero.string_of_int].
  apply string_of_uint_pos.
Qed.

Lemma unsigned_part_str_of_int n :
  Py.unsigned_part (Py.str_of_int n) = Py.str_of_int (Z.abs n).
Proof.
  destruct n as [|p|p]; cbn [Z.abs].
  - reflexivity.
  - rewrite str_of_int_pos. apply unsigned_part_uint.
  - rewrite str_of_int_pos. unfold Py.str_of_int.
    cbn [Z.to_int NilZero.string_of_int]. now rewrite string_of_uint_pos.
Qed.

(** ** The digit limit *)

Lemma length_uint u :
  String.length (NilEmpty.string_of_uint u) = nb_digits u.
Proof. induction u; cbn; congruence. Qed.

Lemma count_digits_uint u :
  Py.count_digits (NilEmpty.string_of_uint u) = Z.of_nat (nb_digits u).
Proof.
  induction u; [reflexivity|..];
    cbn [NilEmpty.string_of_uint Py.count_digits nb_digits];
    rewrite IHu, Nat2Z.inj_succ;
    match goal with
    | |- context [Py.is_digit ?c] => change (Py.is_digit c) with true
    end; lia.
Qed.

Lemma count_digits_nonneg s : 0 <= Py.count_digits s.
Proof.
  induction s as [|c r IH]; cbn [Py.count_digits]; [lia|].
  destruct (Py.is_digit c); lia.
Qed.

Lemma count_digits_str_of_int_abs n :
  Py.count_digits (Py.str_of_int (Z.abs n)) =
  Z.of_nat (String.length (Py.str_of_int (Z.abs n))).
Proof.
  destruct n as [|p|p]; cbn [Z.abs]; [reflexivity|..];
    now rewrite str_of_int_pos, count_digits_uint, length_uint.
Qed.

(** A digit sequence of [k] digits read from [acc] ends between
    [acc * 10^k] and [(acc + 1) * 10^k]. *)
Lemma uint_value_bounds u acc :
  0 <= acc ->
  acc * 10 ^ Z.of_nat (nb_digits u) <= uint_value u acc
  < (acc + 1) * 10 ^ Z.of_nat (nb_digits u).
Proof.
  revert acc.
  induction u as [|u IHu|u IHu|u IHu|u IHu|u IHu|u IHu|u IHu|u IHu|u IHu|u IHu];
    intros acc Hacc; cbn [uint_value nb_digits].
  1: rewrite Z.pow_0_r; lia.
  all: rewrite Nat2Z.inj_succ, Z.pow_succ_r by lia;
    match goal with
    | |- context [uint_value ?l ?a] =>
        specialize (IHu a ltac:(lia));
        generalize dependent (uint_value l a);
        assert (HP : 0 < 10 ^ Z.of_nat (nb_digits l))
          by (apply Z.pow_pos_nonneg; lia);
        generalize dependent (10 ^ Z.of_nat (nb_digits l))
    end;
    intros P HP v Hv; nia.
Qed.

Lemma uint_value_to_uint p : uint_value (Pos.to_uint p) 0 = Z.pos p.
Proof.
  rewrite uint_value_of_uint.
  now rewrite (DecimalPos.Unsigned.of_to p).
Qed.

(** The decimal digits of a positive number do not start with a zero. *)
Lemma to_uint_head p l : Pos.to_uint p <> D0 l.
Proof.
  intros H.
  pose proof (DecimalPos.Unsigned.to_of (Pos.to_uint p)) as Hnorm.
  rewrite (DecimalPos.Unsigned.of_to p) in Hnorm.
  cbn [N.to_uint] in Hnorm. rewrite H in Hnorm.
  rewrite DecimalFacts.unorm_D0 in Hnorm.
  destruct l as [| | | | | | | | | | ].
  - apply (DecimalPos.Unsigned.to_uint_nonzero p). exact H.
  - pose proof (DecimalFacts.nb_digits_unorm (D0 l) ltac:(discriminate)) as Hle.
    rewrite <- Hnorm in Hle. cbn [nb_digits] in Hle. lia.
  - pose proof (DecimalFacts.nb_digits_unorm (D1 l) ltac:(discriminate)) as Hle.
    rewrite <- Hnorm in Hle. cbn [nb_digits] in Hle. lia.
  - pose proof (DecimalFacts.nb_digits_unorm (D2 l) ltac:(discriminate)) as Hle.
    rewrite <- Hnorm in Hle. cbn [nb_digits] in Hle. lia.
  - pose proof (DecimalFacts.nb_digits_unorm (D3 l) ltac:(discriminate)) as Hle.
    rewrite <- Hnorm in Hle. cbn [nb_digits] in Hle. lia.
  - pose proof (DecimalFacts.nb_digits_unorm (D4 l) ltac:(discriminate)) as Hle.
    rewrite <- Hnorm in Hle. cbn [nb_digits] in Hle. lia.
  - pose proof (DecimalFacts.nb_digits_unorm (D5 l) ltac:(discriminate)) as Hle.
    rewrite <- Hnorm in Hle. cbn [nb_digits] in Hle. lia.
  - pose proof (DecimalFacts.nb_digits_unorm (D6 l) ltac:(discriminate)) as Hle.
    rewrite <- Hnorm in Hle. cbn [nb_digits] in Hle. lia.
  - pose proof (DecimalFacts.nb_digits_unorm (D7 l) ltac:(discriminate)) as Hle.
    rewrite <- Hnorm in Hle. cbn [nb_digits] in Hle. lia.
  - pose proof (DecimalFacts.nb_digits_unorm (D8 l) ltac:(discriminate)) as Hle.
    rewrite <- Hnorm in Hle. cbn [nb_digits] in Hle. lia.
  - pose proof (DecimalFacts.nb_digits_unorm (D9 l) ltac:(discriminate)) as Hle.
    rewrite <- Hnorm in Hle. cbn [nb_digits] in Hle. lia.
Qed.

(** A positive number with [k] digits lies between [10^(k-1)] and
    [10^k]. *)
Lemma to_uint_bounds p :
  10 ^ (Z.of_nat (nb_digits (Pos.to_uint p)) - 1) <= Z.pos p
  < 10 ^ Z.of_nat (nb_digits (Pos.to_uint p)).
Proof.
  pose proof (uint_value_to_uint p) as Hv.
  pose proof (uint_value_bounds (Pos.to_uint p) 0 ltac:(lia)) as Hup.
  rewrite Hv in Hup. split; [|lia].
  pose proof (DecimalPos.Unsigned.to_uint_nonnil p) as Hnil.
  pose proof (to_uint_head p) as Hhead.
  destruct (Pos.to_uint p) as [|l|l|l|l|l|l|l|l|l|l];
    [congruence|now elim (Hhead l)|..];
    cbn [uint_value nb_digits] in *;
    rewrite Nat2Z.inj_succ;
    replace (Z.succ (Z.of_nat (nb_digits l)) - 1)
      with (Z.of_nat (nb_digits l)) by lia;
    match type of Hv with
    | uint_value l ?a = _ =>
        pose proof (uint_value_bounds l a ltac:(lia)) as Hlow
    end;
    rewrite Hv in Hlow;
    assert (HP : 0 < 10 ^ Z.of_nat (nb_digits l))
      by (apply Z.pow_pos_nonneg; lia);
    nia.
Qed.

Lemma nb_digits_le_iff p k :
  0 <= k ->
  Z.of_nat (nb_digits (Pos.to_uint p)) <= k <-> Z.pos p < 10 ^ k.
Proof.
  intros Hk. pose proof (to_uint_bounds p) as [Hlow Hup]. split.
  - intros Hle. apply (Z.lt_le_trans _ _ _ Hup).
    apply Z.pow_le_mono_r; lia.
  - intros Hlt.
    destruct (Z_le_gt_dec (Z.of_nat (nb_digits (Pos.to_uint p))) k)
      as [Hle|Hgt]; [exact Hle|exfalso].
    assert (Hpow : 10 ^ k <= 10 ^ (Z.of_nat (nb_digits (Pos.to_uint p)) - 1))
      by (apply Z.pow_le_mono_r; lia).
    lia.
Qed.

(** The digit limit of [str] in terms of the number: [str(n)] returns for
    [|n| < 10^4300] and raises from [10^4300] on. *)
Lemma within_limit_iff n :
  Py.within_limit n = true <-> Z.abs n < 10 ^ Py.max_str_digits.
Proof.
  unfold Py.within_limit. rewrite Z.leb_le.
  assert (Hmax : 0 <= Py.max_str_digits) by (unfold Py.max_str_digits; lia).
  destruct n as [|p|p]; cbn [Z.abs].
  - split; intros _.
    + apply Z.pow_pos_nonneg; [lia|exact Hmax].
    + unfold Py.max_str_digits. cbn. lia.
  - rewrite str_of_int_pos, length_uint. now apply nb_digits_le_iff.
  - rewrite str_of_int_pos, length_uint. now apply nb_digits_le_iff.
Qed.

Lemma str_int_within n :
  Py.within_limit n = true -> Py.str_int n = Some (Py.str_of_int n).
Proof. intros H. unfold Py.str_int. now rewrite H. Qed.

Lemma str_int_beyond n : Py.within_limit n = false -> Py.str_int n = None.
Proof. intros H. unfold Py.str_int. now rewrite H. Qed.

Lemma is_digit_value c : Py.is_digit c = true -> 0 <= Py.digit_value c <= 9.
Proof.
  unfold Py.is_digit, Py.digit_value. intros H.
  apply andb_true_iff in H as [H1 H2].
  apply Z.leb_le in H1. apply Z.leb_le in H2. lia.
Qed.

(** The digits read from [acc] end between [acc * 10^k] and
    [(acc + 1) * 10^k], [k] the number of digits of the text. *)
Lemma digits_value_bounds s acc prev v :
  0 <= acc ->
  Py.digits_value s acc prev = Some v ->
  acc * 10 ^ Py.count_digits s <= v < (acc + 1) * 10 ^ Py.count_digits s.
Proof.
  revert acc prev. induction s as [|c r IH]; intros acc prev Hacc;
    cbn [Py.digits_value Py.count_digits].
  - destruct prev; [intros [= <-]|discriminate]. rewrite Z.pow_0_r. lia.
  - pose proof (count_digits_nonneg r) as Hcnt.
    destruct (Py.is_digit c) eqn:Hd.
    + intros Hv. pose proof (is_digit_value c Hd) as Hc.
      specialize (IH (acc * 10 + Py.digit_value c) true ltac:(lia) Hv).
      rewrite Z.pow_add_r, Z.pow_1_r by lia.
      assert (HP : 0 < 10 ^ Py.count_digits r)
        by (apply Z.pow_pos_nonneg; lia).
      revert IH HP Hc.
      generalize (10 ^ Py.count_digits r) (Py.digit_value c).
      intros P dv IH HP Hc. nia.
    + destruct (Ascii.eqb c "_" && prev); [|discriminate].
      intros Hv. rewrite Z.add_0_l. exact (IH _ _ Hacc Hv).
Qed.

(** What [int] reads has no more digits than the limit, so [str] returns
    on it. *)
Lemma int_of_str_within s n :
  Py.int_of_str s = Some n -> Py.within_limit n = true.
Proof.
  unfold Py.int_of_str. cbn zeta.
  destruct (Py.max_str_digits <? Py.count_digits _) eqn:Hlim; [discriminate|].
  apply Z.ltb_ge in Hlim. intros Hparse. apply within_limit_iff.
  assert (Hbound : forall r v, Py.digits_value r 0 false = Some v ->
                     Py.count_digits r <= Py.max_str_digits ->
                     0 <= v < 10 ^ Py.max_str_digits).
  { intros r v Hv Hle.
    pose proof (digits_value_bounds r 0 false v ltac:(lia) Hv) as Hb.
    pose proof (count_digits_nonneg r) as Hcnt.
    assert (10 ^ Py.count_digits r <= 10 ^ Py.max_str_digits)
      by (apply Z.pow_le_mono_r; lia).
    lia. }
  destruct (Py.int_strip s) as [|c r]; [discriminate|].
  cbn [Py.unsigned_part Py.parse_int] in *.
  destruct (Ascii.eqb c "+"); cbn [orb] in Hlim.
  - pose proof (Hbound r n Hparse Hlim). lia.
  - destruct (Ascii.eqb c "-").
    + destruct (Py.digits_value r 0 false) as [v|] eqn:Hv; [|discriminate].
      injection Hparse as <-. pose proof (Hbound r v Hv Hlim). lia.
    + pose proof (Hbound _ n Hparse Hlim). lia.
Qed.

Lemma str_int_of_parsed s n :
  Py.int_of_str s = Some n -> Py.str_int n = Some (Py.str_of_int n).
Proof. intros H. apply str_int_within. exact (int_of_str_within s n H). Qed.

(** ** Decimal text read back *)

Lemma is_int_space_is_space c :
  Py.is_space c = false -> Py.is_int_space c = false.
Proof.
  destruct c as [[] [] [] [] [] [] [] []]; intros H;
    try reflexivity; discriminate H.
Qed.

Lemma int_strip_no_space s : no_space s = true -> Py.int_strip s = s.
Proof.
  intros H. unfold Py.int_strip.
  assert (Hl : Py.int_lstrip s = s).
  { destruct s as [|c r]; [reflexivity|]. cbn [no_space] in H.
    apply andb_true_iff in H as [Hc _]. apply negb_true_iff in Hc.
    cbn [Py.int_lstrip]. now rewrite (is_int_space_is_space c Hc). }
  rewrite Hl. clear Hl.
  induction s as [|c r IH]; [reflexivity|]. cbn [no_space] in H.
  apply andb_true_iff in H as [Hc Hr]. apply negb_true_iff in Hc.
  cbn [Py.int_rstrip]. now rewrite (is_int_space_is_space c Hc), (IH Hr).
Qed.

(** [int(str(n)) == n] for [n] within the digit limit *)
Lemma int_of_str_of_int n :
  Py.within_limit n = true -> Py.int_of_str (Py.str_of_int n) = Some n.
Proof.
  intros Hn. unfold Py.int_of_str. cbn zeta.
  rewrite (int_strip_no_space _ (no_space_str_of_int n)).
  rewrite unsigned_part_str_of_int, count_digits_str_of_int_abs.
  unfold Py.within_limit in Hn. rewrite Z.ltb_antisym, Hn.
  apply parse_int_str_of_int.
Qed.

Lemma int_of_strip_str_of_int n :
  Py.within_limit n = true ->
  Py.int_of_str (Py.strip (Py.str_of_int n)) = Some n.
Proof.
  rewrite (strip_no_space _ (no_space_str_of_int n)).
  apply int_of_str_of_int.
Qed.

End PyFacts.

(** ** Cursor store *)

(** Within the digit limit the store writes the decimal text. *)
Lemma store_last_seen_tweet_id_within X w :
  Py.within_limit X = true ->
  store_last_seen_tweet_id X w =
  (Ok tt,
   mkWorld (Holds (Py.str_of_int X)) (quota_file w)
           (log w ++ [(INFO, "Storing last seen tweet ID")])).
Proof.
  intros HX. unfold store_last_seen_tweet_id, bind, logging, write_cursor_file.
  cbn [cursor_file quota_file log].
  now rewrite (PyFacts.str_int_within X HX).
Qed.

(** Beyond it [str] raises once the file has been emptied. *)
Lemma store_last_seen_tweet_id_beyond X w :
  Py.within_limit X = false ->
  store_last_seen_tweet_id X w =
  (Raise ValueError,
   mkWorld (Holds "") (quota_file w)
           (log w ++ [(INFO, "Storing last seen tweet ID")])).
Proof.
  intros HX. unfold store_last_seen_tweet_id, bind, logging, write_cursor_file.
  cbn [cursor_file quota_file log].
  now rewrite (PyFacts.str_int_beyond X HX).
Qed.

(** A cursor text that [int] reads as [n] is returned, and logged. *)
Lemma get_last_seen_tweet_id_reads s n w :
  cursor_file w = Holds s ->
  Py.int_of_str (Py.strip s) = Some n ->
  get_last_seen_tweet_id w =
  (Ok n,
   logged (logged w INFO "Retrieing last seen tweet ID")
          INFO ("last seen id: " ++ Py.str_of_int n)).
Proof.
  intros Hc Hn. destruct w as [cf q lg]. cbn in Hc. subst cf.
  unfold get_last_seen_tweet_id, bind, logging, read_cursor_file, logged.
  cbn [cursor_file quota_file log]. rewrite Hn.
  cbn [lift_option ret]. rewrite (PyFacts.str_int_of_parsed _ n Hn).
  reflexivity.
Qed.

(** The outcomes of the cursor read, by what the file holds. *)
Lemma get_last_seen_tweet_id_cases w :
  get_last_seen_tweet_id w =
  match cursor_file w with
  | Missing =>
      (Raise FileNotFoundError, logged w INFO "Retrieing last seen tweet ID")
  | Holds s =>
      match Py.int_of_str (Py.strip s) with
      | None =>
          (Raise ValueError, logged w INFO "Retrieing last seen tweet ID")
      | Some n =>
          (Ok n,
           logged (logged w INFO "Retrieing last seen tweet ID")
                  INFO ("last seen id: " ++ Py.str_of_int n))
      end
  end.
Proof.
  destruct (cursor_file w) as [|s] eqn:Hc.
  - destruct w as [cf q lg]. cbn in Hc. subst cf. reflexivity.
  - destruct (Py.int_of_str (Py.strip s)) as [n|] eqn:Hn.
    + now apply (get_last_seen_tweet_id_reads s).
    + destruct w as [cf q lg]. cbn in Hc. subst cf.
      unfold get_last_seen_tweet_id, bind, logging, read_cursor_file, logged.
      cbn [cursor_file quota_file log]. now rewrite Hn.
Qed.

(** The outcomes of [get_mentions], by what the cursor file holds and
    what the client answers. *)
Lemma get_mentions_cases self w :
  get_mentions self w =
  let w0 := logged w INFO "Retrieving mentions" in
  match cursor_file w with
  | Missing =>
      (Raise FileNotFoundError, logged w0 INFO "Retrieing last seen tweet ID")
  | Holds s =>
      match Py.int_of_str (Py.strip s) with
      | None =>
          (Raise ValueError, logged w0 INFO "Retrieing last seen tweet ID")
      | Some n =>
          match get_users_mentions (api_v2 self) (bot_id self) n with
          | Raise _ => mentions_failed (cursor_read w n)
          | Ok mentions =>
              match dict_get "users" (includes mentions) with
              | None => mentions_failed (cursor_read w n)
              | Some users_metadata =>
                  (Ok (data mentions, users_metadata), cursor_read w n)
              end
          end
      end
  end.
Proof.
  cbn zeta. unfold get_mentions.
  rewrite (bind_ok _ _ w tt (logged w INFO "Retrieving mentions") eq_refl).
  unfold bind at 1. rewrite get_last_seen_tweet_id_cases.
  cbn [logged cursor_file].
  destruct (cursor_file w) as [|s]; [reflexivity|].
  destruct (Py.int_of_str (Py.strip s)) as [n|]; [|reflexivity].
  fold (cursor_read w n).
  unfold try_except, bind, logging, lift_option, lift_result, ret, raise,
    mentions_failed, logged.
  destruct (get_users_mentions _ _ _) as [m|e]; [|reflexivity].
  destruct (dict_get "users" (includes m)); reflexivity.
Qed.

Lemma within_limit_beyond_limit_id : Py.within_limit beyond_limit_id = false.
Proof.
  destruct (Py.within_limit beyond_limit_id) eqn:E; [|reflexivity].
  apply PyFacts.within_limit_iff in E. unfold beyond_limit_id in E.
  assert (0 <= 10 ^ Py.max_str_digits) by (apply Z.pow_nonneg; lia).
  rewrite Z.abs_eq in E by assumption. lia.
Qed.

(** C3, as the code has it.  For every integer [X] that [str] converts
    (one of at most 4300 digits, [|X| < 10^4300], see
    [PyFacts.within_limit_iff]), [store_last_seen_tweet_id(X)] followed by
    [get_last_seen_tweet_id()] returns [X]: the store writes the decimal
    text of [X] over the cursor file (whatever it held, also when it was
    missing), the read parses that text back; the quota file is untouched
    and the log gains the three [INFO] lines of the two calls. *)
Theorem store_then_get_last_seen_tweet_id (X : Z) (w : World) :
  Py.within_limit X = true ->
  (store_last_seen_tweet_id X ;;; get_last_seen_tweet_id) w =
  (Ok X,
   mkWorld (Holds (Py.str_of_int X)) (quota_file w)
     (log w ++ [(INFO, "Storing last seen tweet ID");
                (INFO, "Retrieing last seen tweet ID");
                (INFO, ("last seen id: " ++ Py.str_of_int X)%string)])%list).
Proof.
  intros HX.
  rewrite (bind_ok _ _ w tt _ (store_last_seen_tweet_id_within X w HX)).
  rewrite (get_last_seen_tweet_id_reads (Py.str_of_int X) X
             (mkWorld (Holds (Py.str_of_int X)) (quota_file w)
                      (log w ++ [(INFO, "Storing last seen tweet ID")]))
             eq_refl (PyFacts.int_of_strip_str_of_int X HX)).
  unfold logged. cbn [cursor_file quota_file log].
  now rewrite <- !app_assoc.
Qed.

Lemma store_then_get_last_seen_tweet_id_witness :
  Py.within_limit 1501 = true /\
  (store_last_seen_tweet_id 1501 ;;; get_last_seen_tweet_id) no_cursor_world =
  (Ok 1501,
   mkWorld (Holds "1501") (Holds (Some (JDict [])))
     [(INFO, "Storing last seen tweet ID");
      (INFO, "Retrieing last seen tweet ID");
      (INFO, "last seen id: 1501")]).
Proof.
  split; [reflexivity|].
  exact (store_then_get_last_seen_tweet_id 1501 no_cursor_world eq_refl).
Defined.

(** C3 as stated fails.  For the integer [10^4300], of 4301 digits,
    [str] raises [ValueError] when the cursor file has already been opened
    for writing: the store raises, the id that was in the file is lost,
    and the read that follows raises [ValueError] on the empty file
    instead of returning the integer. *)
Lemma store_then_get_raises_beyond_limit :
  (store_last_seen_tweet_id beyond_limit_id ;;; get_last_seen_tweet_id)
    (store_world []) =
  (Raise ValueError,
   mkWorld (Holds "") (Holds (Some (JDict [])))
           [(INFO, "Storing last seen tweet ID")]) /\
  fst (get_last_seen_tweet_id
         (snd (store_last_seen_tweet_id beyond_limit_id (store_world [])))) =
  Raise ValueError /\
  ~ (forall X w, exists w',
        (store_last_seen_tweet_id X ;;; get_last_seen_tweet_id) w =
        (Ok X, w')).
Proof.
  pose proof (store_last_seen_tweet_id_beyond beyond_limit_id (store_world [])
                within_limit_beyond_limit_id) as Hs.
  split; [|split].
  - rewrite (bind_raise _ _ _ _ _ Hs). reflexivity.
  - rewrite Hs. reflexivity.
  - intros H. destruct (H beyond_limit_id (store_world [])) as [w' Hw].
    rewrite (bind_raise _ _ _ _ _ Hs) in Hw. discriminate Hw.
Qed.

(** ** Dictionaries *)

Section DictFacts.
Context {V : Type}.
Implicit Types (d : list (string * V)) (k : string) (v : V).

Lemma dict_has_get k d :
  existsb (String.eqb k) (dict_keys d) =
  match dict_get k d with Some _ => true | None => false end.
Proof.
  induction d as [|[k' v'] d IH]; simpl; [reflexivity|].
  destruct (String.eqb k k'); simpl; [reflexivity|exact IH].
Qed.


Lemma dict_get_set_other k k' v d :
  k' <> k -> dict_get k' (dict_set k v d) = dict_get k' d.
Proof.
  intros Hne. induction d as [|[k0 v0] d IH]; simpl.
  - destruct (String.eqb_spec k' k); [contradiction|reflexivity].
  - destruct (String.eqb_spec k k0) as [->|Hk]; simpl.
    + destruct (String.eqb_spec k' k0); [contradiction|reflexivity].
    + destruct (String.eqb k' k0); [reflexivity|exact IH].
Qed.

(** Setting an absent key appends the binding. *)
Lemma dict_set_absent k v d :
  dict_get k d = None -> dict_set k v d = (d ++ [(k, v)])%list.
Proof.
  induction d as [|[k' v'] d IH]; simpl; [reflexivity|].
  destruct (String.eqb k k'); [discriminate|].
  intros H. now rewrite (IH H).
Qed.





End DictFacts.

(** ** Quota store: what the two operations evaluate to *)


(** Case analysis on the innermost scrutinee of a monadic computation. *)
Ltac run_step :=
  cbn;
  match goal with
  | |- context [match ?x with _ => _ end] =>
      lazymatch x with
      | context [match _ with _ => _ end] => fail
      | _ => destruct x
      end
  end.

(** [validate_user] only reads the quota file and never touches the
    cursor file. *)
Lemma validate_user_files u w :
  quota_file (snd (validate_user u w)) = quota_file w /\
  cursor_file (snd (validate_user u w)) = cursor_file w.
Proof.
  destruct w as [cf q l].
  unfold validate_user, bind, logging, load_quota_file, json_keys,
    json_getitem, json_int, lift_option, ret, raise.
  repeat run_step; cbn; split; reflexivity.
Qed.








(** [update_validation_data] on a store that holds a dictionary. *)
Lemma update_validation_data_eval u w d :
  quota_file w = Holds (Some (JDict d)) ->
  update_validation_data u w =
  let k := str_of_user_id u in
  let w1 := logged w INFO "Updating validation data" in
  match dict_get k d with
  | None => dump_quota_file (JDict (dict_set k new_record d)) w1
  | Some record =>
      (old <- json_getitem record "requests" ;;
       new <- json_add_one old ;;
       record' <- json_setitem record "requests" new ;;
       users_data' <- json_setitem (JDict d) k record' ;;
       dump_quota_file users_data') w1
  end.
Proof.
  destruct w as [cf q l]. cbn [quota_file]. intros ->.
  unfold update_validation_data, bind, logging, load_quota_file, logged.
  cbn [quota_file cursor_file log json_keys ret].
  rewrite dict_has_get. unfold json_getitem at 1.
  destruct (dict_get (str_of_user_id u) d) as [record|] eqn:E.
  - cbn [lift_option ret].
    destruct (json_getitem record "requests" _) as [[old|e] w2]; [|reflexivity].
    destruct (json_add_one old w2) as [[new|e] w3]; [|reflexivity].
    destruct (json_setitem record "requests" new w3) as [[r'|e] w4];
      reflexivity.
  - reflexivity.
Qed.




(** On a store that holds a dictionary the call ends in one of three
    ways: it raises before the file is opened for writing (the record of
    the user is there, but not of the expected form), or it hands to
    [json.dumps] the dictionary with one value set at the key of the user,
    the record of the user being there or not. *)
Lemma update_validation_data_dict u w d :
  quota_file w = Holds (Some (JDict d)) ->
  (exists e,
      e <> ValueError /\
      dict_get (str_of_user_id u) d <> None /\
      update_validation_data u w =
      (Raise e, logged w INFO "Updating validation data")) \/
  (exists v,
      dict_get (str_of_user_id u) d <> None /\
      update_validation_data u w =
      dump_quota_file (JDict (dict_set (str_of_user_id u) v d))
                      (logged w INFO "Updating validation data")) \/
  (dict_get (str_of_user_id u) d = None /\
   update_validation_data u w =
   dump_quota_file (JDict (dict_set (str_of_user_id u) new_record d))
                   (logged w INFO "Updating validation data")).
Proof.
  intros Hq. rewrite (update_validation_data_eval u w d Hq). cbn zeta.
  destruct (dict_get (str_of_user_id u) d) as [record|] eqn:Hrec;
    [|right; right; split; reflexivity].
  unfold bind, json_getitem, json_add_one, json_setitem, lift_option, ret,
    raise.
  destruct record as [|b|n|s|l|r];
    try (left; exists TypeError;
         split; [discriminate|split; [discriminate|reflexivity]]).
  destruct (dict_get "requests" r) as [old|];
    [|left; exists KeyError;
      split; [discriminate|split; [discriminate|reflexivity]]].
  destruct old as [|b|n|s|l|r'];
    try (left; exists TypeError;
         split; [discriminate|split; [discriminate|reflexivity]]);
    right; left; eexists; (split; [discriminate|reflexivity]).
Qed.

(** On any other quota file the call raises having only logged. *)
Lemma update_validation_data_no_dict u w :
  (forall d, quota_file w <> Holds (Some (JDict d))) ->
  exists e,
    e <> ValueError /\
    update_validation_data u w =
    (Raise e, logged w INFO "Updating validation data").
Proof.
  intros Hq. destruct w as [cf q lg]. cbn [quota_file] in Hq.
  destruct q as [|[j|]].
  - exists FileNotFoundError. split; [discriminate|reflexivity].
  - destruct j as [|b|n|s|l|d];
      try (exists AttributeError; split; [discriminate|reflexivity]).
    now elim (Hq d).
  - exists JSONDecodeError. split; [discriminate|reflexivity].
Qed.

Lemma quota_file_dict_or_not w :
  (exists d, quota_file w = Holds (Some (JDict d))) \/
  (forall d, quota_file w <> Holds (Some (JDict d))).
Proof.
  destruct (quota_file w) as [|[[|b|n|s|l|d]|]];
    try (right; intros d0; discriminate).
  left. now exists d.
Qed.

(** The world [update_validation_data] leaves: one more line in the log
    and, where the call got as far, what the write left. *)
Lemma update_validation_data_world u w :
  (exists e,
      update_validation_data u w =
      (Raise e, logged w INFO "Updating validation data")) \/
  (exists j,
      update_validation_data u w =
      dump_quota_file j (logged w INFO "Updating validation data")).
Proof.
  destruct (quota_file_dict_or_not w) as [[d Hq]|Hq].
  - destruct (update_validation_data_dict u w d Hq)
      as [(e & _ & _ & Hrun)|[(v & _ & Hrun)|(_ & Hrun)]].
    + left. now exists e.
    + right. eexists. exact Hrun.
    + right. eexists. exact Hrun.
  - destruct (update_validation_data_no_dict u w Hq) as (e & _ & Hrun).
    left. now exists e.
Qed.

(** What [update_validation_data] does to the quota file: nothing, or one
    [dict_set] at the key of the user, or, with the [ValueError] of
    [json.dumps], the loss of what the file held. *)
Lemma update_validation_data_writes u w :
  (quota_file (snd (update_validation_data u w)) = quota_file w /\
   fst (update_validation_data u w) <> Raise ValueError /\
   fst (update_validation_data u w) <> Ok tt) \/
  (exists d v,
      quota_file w = Holds (Some (JDict d)) /\
      fst (update_validation_data u w) = Ok tt /\
      json_within_limit (JDict (dict_set (str_of_user_id u) v d)) = true /\
      quota_file (snd (update_validation_data u w)) =
      Holds (Some (JDict (dict_set (str_of_user_id u) v d)))) \/
  (fst (update_validation_data u w) = Raise ValueError /\
   quota_file (snd (update_validation_data u w)) = Holds None).
Proof.
  assert (Hdump : forall j w1,
             (fst (dump_quota_file j w1) = Ok tt /\
              json_within_limit j = true /\
              quota_file (snd (dump_quota_file j w1)) = Holds (Some j)) \/
             (fst (dump_quota_file j w1) = Raise ValueError /\
              quota_file (snd (dump_quota_file j w1)) = Holds None)).
  { intros j w1. unfold dump_quota_file.
    destruct (json_within_limit j); [left|right]; repeat split. }
  destruct (quota_file_dict_or_not w) as [[d Hq]|Hq].
  - destruct (update_validation_data_dict u w d Hq)
      as [(e & He & _ & ->)|[(v & _ & ->)|(_ & ->)]].
    + left. cbn [fst snd logged quota_file].
      split; [reflexivity|]. split; [congruence|discriminate].
    + destruct (Hdump (JDict (dict_set (str_of_user_id u) v d))
                      (logged w INFO "Updating validation data"))
        as [(H1 & H2 & H3)|[H1 H2]]; [right; left|right; right; now split].
      exists d, v. now repeat split.
    + destruct (Hdump (JDict (dict_set (str_of_user_id u) new_record d))
                      (logged w INFO "Updating validation data"))
        as [(H1 & H2 & H3)|[H1 H2]]; [right; left|right; right; now split].
      exists d, new_record. now repeat split.
  - destruct (update_validation_data_no_dict u w Hq) as (e & He & ->).
    left. cbn [fst snd logged quota_file].
    split; [reflexivity|]. split; [congruence|discriminate].
Qed.


(** ** Quota store: the user check *)



(** ** Quota store: recording a request *)











(** ** Quota store: the counts only grow *)





(** Every other operation leaves the quota file as it is. *)
Lemma run_op_quota_file self o w :
  (forall u, o <> UpdateValidationData u) ->
  quota_file (run_op self o w) = quota_file w.
Proof.
  intros Hop. destruct o as [|x|u|u| |u|t n|t pd| ]; cbn [run_op].
  - rewrite get_last_seen_tweet_id_cases.
    destruct (cursor_file w) as [|s]; [reflexivity|].
    destruct (Py.int_of_str (Py.strip s)); reflexivity.
  - unfold store_last_seen_tweet_id, bind, logging, write_cursor_file,
      lift_option, ret, raise.
    cbn [cursor_file quota_file log].
    destruct (Py.str_int x); reflexivity.
  - apply validate_user_files.
  - now elim (Hop u).
  - rewrite get_mentions_cases. cbn zeta.
    destruct (cursor_file w) as [|s]; [reflexivity|].
    destruct (Py.int_of_str (Py.strip s)); [|reflexivity].
    destruct (get_users_mentions _ _ _) as [m|e]; [|reflexivity].
    destruct (dict_get "users" (includes m)); reflexivity.
  - unfold fetch_tweets, bind, logging, lift_result, ret, raise.
    destruct (get_users_tweets _ _ _); reflexivity.
  - unfold reply_with_limit_reached, bind, logging, lift_result, ret, raise.
    destruct (create_tweet _ _ _); reflexivity.
  - unfold get_params_from_tweet, bind, logging, lift_result, ret, raise.
    destruct (scan_params _ _ _ _); reflexivity.
  - reflexivity.
Qed.




(** ** Mention fetcher *)

(** C5, as the code has it.  When the cursor read that precedes the [try]
    block succeeds, [get_mentions] never raises: an exception of the API
    call, or of the lookup of [includes["users"]], is caught, an error is
    logged and the pair of two empty lists is returned; without an
    exception the data and the users of the response are returned. *)
Theorem get_mentions_catches (self : TwitterBot) (w : World)
  (s : string) (n : Z) :
  cursor_file w = Holds s ->
  Py.int_of_str (Py.strip s) = Some n ->
  let w1 := cursor_read w n in
  get_mentions self w =
  match get_users_mentions (api_v2 self) (bot_id self) n with
  | Raise _ => mentions_failed w1
  | Ok mentions =>
      match dict_get "users" (includes mentions) with
      | None => mentions_failed w1
      | Some users_metadata => (Ok (data mentions, users_metadata), w1)
      end
  end /\
  exists r w', get_mentions self w = (Ok r, w').
Proof.
  intros Hc Hn w1.
  assert (Heval : get_mentions self w =
    match get_users_mentions (api_v2 self) (bot_id self) n with
    | Raise _ => mentions_failed w1
    | Ok mentions =>
        match dict_get "users" (includes mentions) with
        | None => mentions_failed w1
        | Some users_metadata => (Ok (data mentions, users_metadata), w1)
        end
    end).
  { subst w1. unfold get_mentions.
    rewrite (bind_ok _ _ w tt (logged w INFO "Retrieving mentions") eq_refl).
    rewrite (bind_ok _ _ _ n _
               (get_last_seen_tweet_id_reads s n
                  (logged w INFO "Retrieving mentions") Hc Hn)).
    fold (cursor_read w n).
    unfold try_except, bind, logging, lift_option, lift_result, ret, raise,
      mentions_failed, logged.
    destruct (get_users_mentions _ _ _) as [m|e]; [|reflexivity].
    destruct (dict_get "users" (includes m)); reflexivity. }
  split; [exact Heval|].
  rewrite Heval. unfold mentions_failed.
  destruct (get_users_mentions _ _ _) as [m|e]; [|eauto].
  destruct (dict_get "users" (includes m)); eauto.
Qed.

(** An exception of the cursor read leaves [get_mentions] as it is. *)
Lemma get_mentions_propagates self w e w' :
  get_last_seen_tweet_id (logged w INFO "Retrieving mentions") = (Raise e, w') ->
  get_mentions self w = (Raise e, w').
Proof.
  intros H. unfold get_mentions.
  rewrite (bind_ok _ _ w tt (logged w INFO "Retrieving mentions") eq_refl).
  now apply bind_raise.
Qed.

(** ** Tokenizer *)


Lemma fold_left_extend {A B} (f : A -> list B) (l : list A) (acc : list B) :
  fold_left (fun all x => (all ++ f x)%list) l acc =
  (acc ++ flat_map f l)%list.
Proof.
  revert acc. induction l as [|x l IH]; intros acc; simpl.
  - now rewrite app_nil_r.
  - now rewrite IH, app_assoc.
Qed.

(** The loop is a concatenation, whatever the stop words of the bot. *)
Lemma preprocess_and_tokenize_tweets_flat_map tok self tweets :
  preprocess_and_tokenize_tweets tok self tweets =
  flat_map
    (fun tweet =>
       filter (fun word => negb (str_in word (stop_words self)))
              (tok (text tweet) false true true))
    tweets.
Proof.
  unfold preprocess_and_tokenize_tweets.
  now rewrite (fold_left_extend
    (fun tweet => filter (fun word => negb (str_in word (stop_words self)))
                         (tok (text tweet) false true true))).
Qed.


(** ** Input validation *)

Lemma py_eqb_refl : forall a, py_eqb a a = true.
Proof.
  fix IH 1. intros [|b|n|s|l]; cbn.
  - reflexivity.
  - apply Bool.eqb_reflx.
  - apply Z.eqb_refl.
  - apply String.eqb_refl.
  - induction l as [|x l IHl]; [reflexivity|].
    now rewrite (IH x), IHl.
Qed.

(** C9. For a list with at least one element as [required_input],
    [validate_input] returns [True] whatever the tweet text ([None]
    included), since each element is looked up in the list it comes from;
    for the empty list it returns [False]; for a [required_input] that is
    neither a list nor a string it falls through and returns [None]. *)
Theorem validate_input_ignores_text :
  (forall x l tweet_text,
      validate_input (PList (x :: l)) tweet_text = Some true) /\
  (forall tweet_text, validate_input (PList []) tweet_text = Some false) /\
  (forall tweet_text,
      validate_input PNone tweet_text = None /\
      (forall b, validate_input (PBool b) tweet_text = None) /\
      (forall n, validate_input (PInt n) tweet_text = None)).
Proof.
  split; [|split].
  - intros x l t. unfold validate_input. cbn [validate_input_loop py_in existsb].
    now rewrite py_eqb_refl.
  - reflexivity.
  - intros t. repeat split.
Qed.

(** ** Parameter extractor *)

Lemma prefix_iff a s :
  String.prefix a s = true <-> exists rest, s = a ++ rest.
Proof.
  revert s. induction a as [|c a IH]; intros s.
  - split; [now exists s|intros _; now destruct s].
  - destruct s as [|c' s]; cbn [String.prefix append].
    + split; [discriminate|intros [rest H]; discriminate].
    + destruct (ascii_dec c c') as [->|Hne].
      * rewrite IH. split; intros [rest H]; exists rest.
        -- now rewrite H.
        -- now injection H.
      * split; [discriminate|].
        intros [rest H]. injection H as H1 _. now elim Hne.
Qed.

(** [needle in hay] holds exactly when [hay] is some text, then [needle],
    then some text. *)
Lemma contains_iff needle hay :
  Py.contains needle hay = true <->
  exists before after, hay = before ++ needle ++ after.
Proof.
  induction hay as [|c hay IH]; cbn [Py.contains].
  - rewrite orb_false_r, prefix_iff. split.
    + intros [rest H]. now exists "", rest.
    + intros (before & after & H). destruct before; [|discriminate].
      now exists after.
  - rewrite orb_true_iff, IH, prefix_iff. split.
    + intros [[rest H]|(before & after & ->)].
      * now exists "", rest.
      * now exists (String c before), after.
    + intros (before & after & H). destruct before as [|c' before].
      * left. now exists after.
      * right. injection H as _ ->. now exists before, after.
Qed.

(** [first_allowed] picks the first value of the list that occurs in the
    text: the values before it do not occur. *)
Lemma first_allowed_first lowered values value :
  first_allowed lowered values = Some value <->
  exists before after,
    values = (before ++ value :: after)%list /\
    Py.contains value lowered = true /\
    forall x, In x before -> Py.contains x lowered = false.
Proof.
  unfold first_allowed. induction values as [|v rest IH]; cbn [find].
  - split; [discriminate|].
    intros (before & after & H & _). now destruct before.
  - destruct (Py.contains v lowered) eqn:Hv.
    + split.
      * intros [= ->]. exists [], rest. repeat split; [exact Hv|].
        intros x [].
      * intros (before & after & H & Hval & Hbefore).
        destruct before as [|b before]; cbn in H.
        -- now injection H as ->.
        -- injection H as -> _.
           rewrite (Hbefore b (or_introl eq_refl)) in Hv. discriminate.
    + rewrite IH. split.
      * intros (before & after & -> & Hval & Hbefore).
        exists (v :: before), after. repeat split; [exact Hval|].
        intros x [<-|Hin]; [exact Hv|now apply Hbefore].
      * intros (before & after & H & Hval & Hbefore).
        destruct before as [|b before]; cbn in H.
        -- injection H as -> _. rewrite Hval in Hv. discriminate.
        -- injection H as -> ->. exists before, after.
           repeat split; [exact Hval|].
           intros x Hin. apply Hbefore. now right.
Qed.

Lemma scan_values_find lowered param values params :
  scan_values lowered param values params =
  match first_allowed lowered values with
  | Some value => dict_set param value params
  | None => params
  end.
Proof.
  unfold first_allowed.
  induction values as [|value rest IH]; cbn [scan_values find];
    [reflexivity|].
  destruct (Py.contains value lowered); [reflexivity|exact IH].
Qed.

Lemma In_dict_get {V} (k : string) (v : V) (d : list (string * V)) :
  NoDup (dict_keys d) -> In (k, v) d -> dict_get k d = Some v.
Proof.
  induction d as [|[k' v'] d IH]; cbn; [contradiction|].
  intros Hnd [[= -> ->]|Hin].
  - now rewrite String.eqb_refl.
  - inversion Hnd as [|? ? Hnotin Hnd']; subst.
    destruct (String.eqb_spec k k') as [->|_].
    + elim Hnotin. change k' with (fst (k', v)). now apply in_map.
    + now apply IH.
Qed.

(** The outer loop over the entries still to visit: the entries found
    are appended to the parameters found so far. *)
Lemma scan_params_entries text params_dict rest params :
  (forall k vs, In (k, vs) rest -> dict_get k params_dict = Some vs) ->
  NoDup (dict_keys rest) ->
  (forall k, In k (dict_keys rest) -> dict_get k params = None) ->
  scan_params (Py.lower text) params_dict (dict_keys rest) params =
  Ok (params ++ extract_params text rest)%list.
Proof.
  revert params.
  induction rest as [|[param values] rest IH]; intros params Hget Hnd Hnew.
  - cbn. now rewrite app_nil_r.
  - cbn [dict_keys map fst scan_params].
    rewrite (Hget param values (or_introl eq_refl)).
    inversion Hnd as [|? ? Hnotin Hnd']; subst.
    rewrite scan_values_find.
    change (extract_params text ((param, values) :: rest))
      with (match first_allowed (Py.lower text) values with
            | Some value => [(param, value)]
            | None => []
            end ++ extract_params text rest)%list.
    assert (Hrest : forall k vs, In (k, vs) rest ->
                                 dict_get k params_dict = Some vs)
      by (intros k vs Hin; apply Hget; now right).
    destruct (first_allowed (Py.lower text) values) as [value|].
    + rewrite (dict_set_absent param value params)
        by (apply Hnew; now left).
      rewrite (IH _ Hrest Hnd').
      * now rewrite <- app_assoc.
      * intros k Hin.
        rewrite <- (dict_set_absent param value params)
          by (apply Hnew; now left).
        rewrite dict_get_set_other by (intros ->; contradiction).
        apply Hnew. now right.
    + rewrite (IH _ Hrest Hnd'); [reflexivity|].
      intros k Hin. apply Hnew. now right.
Qed.

(** C4. For every tweet text and every [params_dict] (a dictionary: its
    keys are distinct), [get_params_from_tweet] returns, without raising,
    the dictionary that maps each parameter, in the order of
    [params_dict], to the first of its allowed values that occurs in the
    lower-cased text, parameters without such a value being left out.
    The two examples of the description evaluate as stated. *)
Theorem get_params_from_tweet_first_match (tweet_text : string)
  (params_dict : list (string * list string)) (w : World) :
  NoDup (dict_keys params_dict) ->
  get_params_from_tweet tweet_text params_dict w =
  (Ok (extract_params tweet_text params_dict),
   logged w INFO "Extracting parameters from tweet") /\
  fst (get_params_from_tweet "I want a black sketch"
         [("mode", ["sketch"; "default"]); ("color", ["black"; "white"])] w) =
  Ok [("mode", "sketch"); ("color", "black")] /\
  fst (get_params_from_tweet "no matching keywords"
         [("mode", ["sketch"])] w) = Ok [].
Proof.
  intros Hnd. split; [|split; reflexivity].
  unfold get_params_from_tweet, bind, logging, lift_result. cbn zeta.
  rewrite (scan_params_entries tweet_text params_dict params_dict []).
  - reflexivity.
  - intros k vs Hin. now apply In_dict_get.
  - exact Hnd.
  - reflexivity.
Qed.

(** * The statements at concrete inputs *)


(** Four recorded requests leave the user valid, the fifth does not. *)
Example validate_user_after_requests :
  fst (validate_user (UidInt 42)
         (record_requests 4 (UidInt 42) no_cursor_world)) = Ok true /\
  fst (validate_user (UidInt 42)
         (record_requests 5 (UidInt 42) no_cursor_world)) = Ok false /\
  quota_file (record_requests 5 (UidInt 42) no_cursor_world) =
  Holds (Some (JDict [("42", JDict [("requests", JInt 5)])])).
Proof. repeat split. Qed.


Lemma get_params_from_tweet_first_match_witness :
  NoDup (dict_keys [("color", ["Black"; "white"; "black"]);
                    ("border", ["yes"; "no"])]) /\
  get_params_from_tweet "A WHITE cloud on black, yes"
    [("color", ["Black"; "white"; "black"]); ("border", ["yes"; "no"])]
    no_cursor_world =
  (Ok [("color", "white"); ("border", "yes")],
   logged no_cursor_world INFO "Extracting parameters from tweet").
Proof.
  assert (Hnd : NoDup (dict_keys [("color", ["Black"; "white"; "black"]);
                                  ("border", ["yes"; "no"])])).
  { repeat constructor; cbn; intuition discriminate. }
  split; [exact Hnd|].
  exact (proj1 (get_params_from_tweet_first_match
                  "A WHITE cloud on black, yes"
                  [("color", ["Black"; "white"; "black"]);
                   ("border", ["yes"; "no"])]
                  no_cursor_world Hnd)).
Defined.

(** C5 as stated fails.  Without a cursor file the read before the [try]
    block raises, and so does [get_mentions]: nothing is caught, no error
    is logged and no pair is returned. *)
Lemma get_mentions_raises_without_cursor :
  get_mentions (example_bot failing_client) no_cursor_world =
  (Raise FileNotFoundError,
   logged (logged no_cursor_world INFO "Retrieving mentions")
          INFO "Retrieing last seen tweet ID") /\
  ~ (forall self w, exists r w', get_mentions self w = (Ok r, w')).
Proof.
  split; [reflexivity|].
  intros H.
  destruct (H (example_bot failing_client) no_cursor_world) as (r & w' & Hr).
  discriminate Hr.
Qed.

(** A cursor file that holds no integer: the read raises as well. *)
Example get_mentions_raises_on_bad_cursor :
  fst (get_mentions (example_bot answering_client)
         (mkWorld (Holds "15oo") Missing [])) = Raise ValueError.
Proof. reflexivity. Qed.

Lemma get_mentions_catches_witness :
  get_mentions (example_bot failing_client) (store_world []) =
  mentions_failed (cursor_read (store_world []) 1500) /\
  exists r w',
    get_mentions (example_bot failing_client) (store_world []) = (Ok r, w').
Proof.
  exact (get_mentions_catches (example_bot failing_client) (store_world [])
           "1500" 1500 eq_refl eq_refl).
Defined.

(** With an answer the mentions and their authors come back; an answer
    without included users ends in the [except] branch. *)
Example get_mentions_answers :
  fst (get_mentions (example_bot answering_client) (store_world [])) =
  Ok (Some [mkTweet 1501 42 "@bot a black sketch please"], [mkUser 42 "alice"])
  /\
  get_mentions (example_bot quiet_client) (store_world []) =
  mentions_failed (cursor_read (store_world []) 1500).
Proof. split; reflexivity. Qed.




(** A record whose count is no integer makes the update raise; the file
    stays as it was. *)
Example update_validation_data_raises_on_text :
  update_validation_data (UidInt 42)
    (store_world [("42", JDict [("requests", JStr "4")])]) =
  (Raise TypeError,
   logged (store_world [("42", JDict [("requests", JStr "4")])])
          INFO "Updating validation data").
Proof. reflexivity. Qed.

(** The cursor survives a round trip, also below zero. *)
Example store_then_get_negative :
  fst ((store_last_seen_tweet_id (-1205) ;;; get_last_seen_tweet_id)
         no_cursor_world) = Ok (-1205).
Proof. reflexivity. Qed.

(** The listed strings need not occur in the text. *)
Example validate_input_without_match :
  validate_input (PList [PStr "make tweets cloud"]) (Some "good morning") =
  Some true /\
  validate_input (PStr "make tweets cloud") (Some "good morning") =
  Some false /\
  validate_input (PStr "make tweets cloud") (Some "Make Tweets Cloud!") =
  Some true.
Proof. repeat split. Qed.

(** Stop words and punctuation symbols go, the order of the rest stays. *)
Example preprocess_and_tokenize_tweets_example :
  preprocess_and_tokenize_tweets
    (fun tweet_text _ _ _ =>
       if String.eqb tweet_text "one" then ["this"; "is"; "so"; "cool"; "!"]
       else ["the"; "end"; "."; "..."])
    (example_bot failing_client)
    [mkTweet 1 42 "one"; mkTweet 2 42 "two"] =
  ["this"; "so"; "cool"; "end"; "..."].
Proof. reflexivity. Qed.

(** * Further properties *)

(** ** Cursor store *)

Lemma lstrip_all_space ws s :
  all_space ws = true -> Py.lstrip (ws ++ s) = Py.lstrip s.
Proof.
  induction ws as [|c ws IH]; cbn [all_space append Py.lstrip];
    [reflexivity|].
  intros H. apply andb_true_iff in H as [Hc Hws]. rewrite Hc. now apply IH.
Qed.

Lemma rstrip_all_space ws : all_space ws = true -> Py.rstrip ws = "".
Proof.
  induction ws as [|c ws IH]; cbn [all_space Py.rstrip]; [reflexivity|].
  intros H. apply andb_true_iff in H as [Hc Hws].
  now rewrite (IH Hws), Hc.
Qed.

Lemma rstrip_no_space_app t ws :
  no_space t = true -> all_space ws = true -> Py.rstrip (t ++ ws) = t.
Proof.
  intros Ht Hws. induction t as [|c t IH]; cbn [append].
  - now apply rstrip_all_space.
  - cbn [no_space] in Ht. apply andb_true_iff in Ht as [Hc Ht].
    apply negb_true_iff in Hc. cbn [Py.rstrip]. now rewrite Hc, (IH Ht).
Qed.

Lemma lstrip_head_no_space t s :
  no_space t = true -> t <> "" -> Py.lstrip (t ++ s) = t ++ s.
Proof.
  destruct t as [|c t]; [congruence|]. cbn [no_space append Py.lstrip].
  intros H _. apply andb_true_iff in H as [Hc _].
  apply negb_true_iff in Hc. now rewrite Hc.
Qed.

(** [strip] removes the white space around a text without white space. *)
Lemma strip_surrounded before t after :
  all_space before = true -> all_space after = true ->
  no_space t = true -> t <> "" ->
  Py.strip (before ++ t ++ after) = t.
Proof.
  intros Hb Ha Ht Hne. unfold Py.strip.
  rewrite (lstrip_all_space before _ Hb), (lstrip_head_no_space t after Ht Hne).
  now apply rstrip_no_space_app.
Qed.

Lemma str_of_int_not_empty n : Py.str_of_int n <> "".
Proof.
  intros H. pose proof (PyFacts.parse_int_str_of_int n) as Hn.
  rewrite H in Hn. discriminate Hn.
Qed.

(** X1. A cursor file that holds the decimal text of [X] (of at most
    4300 digits, so that [int] and [str] convert it) with white space
    around it (a final newline, say) is read as [X]. *)
Theorem get_last_seen_tweet_id_ignores_white_space (X : Z)
  (before after : string) (w : World) :
  Py.within_limit X = true ->
  all_space before = true ->
  all_space after = true ->
  cursor_file w = Holds (before ++ Py.str_of_int X ++ after) ->
  get_last_seen_tweet_id w =
  (Ok X,
   logged (logged w INFO "Retrieing last seen tweet ID")
          INFO ("last seen id: " ++ Py.str_of_int X)).
Proof.
  intros HX Hb Ha Hc.
  apply (get_last_seen_tweet_id_reads _ X w Hc).
  rewrite (strip_surrounded before (Py.str_of_int X) after Hb Ha
             (PyFacts.no_space_str_of_int X) (str_of_int_not_empty X)).
  now apply PyFacts.int_of_str_of_int.
Qed.

Lemma get_last_seen_tweet_id_ignores_white_space_witness :
  get_last_seen_tweet_id
    (mkWorld (Holds (" " ++ Py.str_of_int 1500 ++ String "010" ""))
             Missing []) =
  (Ok 1500,
   logged (logged (mkWorld (Holds (" " ++ Py.str_of_int 1500
                                       ++ String "010" "")) Missing [])
                  INFO "Retrieing last seen tweet ID")
          INFO ("last seen id: " ++ Py.str_of_int 1500)).
Proof.
  exact (get_last_seen_tweet_id_ignores_white_space 1500 " "
           (String "010" "")
           (mkWorld (Holds (" " ++ Py.str_of_int 1500 ++ String "010" ""))
                    Missing [])
           eq_refl eq_refl eq_refl eq_refl).
Defined.

(** ** Mention fetcher *)

(** X3. After [store_last_seen_tweet_id(X)] for an [X] that [str]
    converts, [get_mentions] asks the mentions endpoint for the mentions
    of the bot since exactly [X], and its outcome is the one of that call.
    For an [X] of more than 4300 digits the store raises [ValueError]
    with the cursor file left empty, and no call is made. *)
Theorem store_then_get_mentions (self : TwitterBot) (X : Z) (w : World) :
  (store_last_seen_tweet_id X ;;; get_mentions self) w =
  if Py.within_limit X then
    let w1 :=
      cursor_read
        (mkWorld (Holds (Py.str_of_int X)) (quota_file w)
                 (log w ++ [(INFO, "Storing last seen tweet ID")])) X in
    match get_users_mentions (api_v2 self) (bot_id self) X with
    | Raise _ => mentions_failed w1
    | Ok mentions =>
        match dict_get "users" (includes mentions) with
        | None => mentions_failed w1
        | Some users_metadata => (Ok (data mentions, users_metadata), w1)
        end
    end
  else
    (Raise ValueError,
     mkWorld (Holds "") (quota_file w)
             (log w ++ [(INFO, "Storing last seen tweet ID")])).
Proof.
  destruct (Py.within_limit X) eqn:HX.
  - rewrite (bind_ok _ _ w tt _ (store_last_seen_tweet_id_within X w HX)).
    cbn zeta. unfold get_mentions.
    set (w0 := mkWorld (Holds (Py.str_of_int X)) (quota_file w)
                       (log w ++ [(INFO, "Storing last seen tweet ID")])).
    rewrite (bind_ok _ _ w0 tt (logged w0 INFO "Retrieving mentions") eq_refl).
    rewrite (bind_ok _ _ _ X _
               (get_last_seen_tweet_id_reads (Py.str_of_int X) X
                  (logged w0 INFO "Retrieving mentions") eq_refl
                  (PyFacts.int_of_strip_str_of_int X HX))).
    fold (cursor_read w0 X).
    unfold try_except, bind, logging, lift_option, lift_result, ret, raise,
      mentions_failed, logged.
    destruct (get_users_mentions _ _ _) as [m|e]; [|reflexivity].
    destruct (dict_get "users" (includes m)); reflexivity.
  - now apply bind_raise, store_last_seen_tweet_id_beyond.
Qed.

(** ** The files and the log under every operation *)

Ltac log_grows :=
  cbn [log]; rewrite <- ?app_assoc; eexists; reflexivity.

Lemma update_validation_data_cursor_log u w :
  cursor_file (snd (update_validation_data u w)) = cursor_file w /\
  exists added,
    log (snd (update_validation_data u w)) = (log w ++ added)%list.
Proof.
  destruct (update_validation_data_world u w) as [[e ->]|[j ->]].
  - cbn [snd logged cursor_file]. split; [reflexivity|log_grows].
  - unfold dump_quota_file. destruct (json_within_limit j);
      cbn [snd logged cursor_file]; (split; [reflexivity|log_grows]).
Qed.

Lemma validate_user_log u w :
  exists added, log (snd (validate_user u w)) = (log w ++ added)%list.
Proof.
  destruct w as [cf q lg].
  unfold validate_user, bind, logging, load_quota_file, json_keys,
    json_getitem, json_int, lift_option, ret, raise.
  repeat run_step; cbn; log_grows.
Qed.

Lemma run_op_cursor_log self o w :
  (writes_cursor o = false ->
   cursor_file (run_op self o w) = cursor_file w) /\
  exists added, log (run_op self o w) = (log w ++ added)%list.
Proof.
  destruct o as [|x|u|u| |u|t n|t pd| ]; cbn [run_op writes_cursor].
  - rewrite get_last_seen_tweet_id_cases. unfold logged.
    destruct (cursor_file w) as [|s];
      [cbn; split; [reflexivity|log_grows]|].
    destruct (Py.int_of_str (Py.strip s)); cbn;
      (split; [reflexivity|log_grows]).
  - split; [discriminate|].
    unfold store_last_seen_tweet_id, bind, logging, write_cursor_file,
      lift_option, ret, raise.
    cbn [cursor_file quota_file log].
    destruct (Py.str_int x); cbn; log_grows.
  - split; [intros _; apply validate_user_files|apply validate_user_log].
  - destruct (update_validation_data_cursor_log u w) as [Hc Hl].
    split; [intros _; exact Hc|exact Hl].
  - rewrite get_mentions_cases. cbn zeta.
    unfold mentions_failed, cursor_read, logged.
    destruct (cursor_file w) as [|s];
      [cbn; split; [reflexivity|log_grows]|].
    destruct (Py.int_of_str (Py.strip s));
      [|cbn; split; [reflexivity|log_grows]].
    destruct (get_users_mentions _ _ _) as [m|e]; cbn;
      [|split; [reflexivity|log_grows]].
    destruct (dict_get "users" (includes m)); cbn;
      (split; [reflexivity|log_grows]).
  - unfold fetch_tweets, bind, logging, lift_result, ret, raise.
    destruct (get_users_tweets _ _ _); cbn; (split; [reflexivity|log_grows]).
  - unfold reply_with_limit_reached, bind, logging, lift_result, ret, raise.
    destruct (create_tweet _ _ _); cbn; (split; [reflexivity|log_grows]).
  - unfold get_params_from_tweet, bind, logging, lift_result, ret, raise.
    destruct (scan_params _ _ _ _); cbn; (split; [reflexivity|log_grows]).
  - split; [reflexivity|]. exists []. cbn. now rewrite app_nil_r.
Qed.

(** X4. Along every sequence of operations of the class: the cursor file
    changes only through [store_last_seen_tweet_id] (so fetching mentions
    never advances the cursor by itself), the quota file changes only
    through [update_validation_data], and the log only gains lines at its
    end. *)
Theorem run_ops_frame (self : TwitterBot) (ops : list op) (w : World) :
  (existsb writes_cursor ops = false ->
   cursor_file (run_ops self ops w) = cursor_file w) /\
  (existsb writes_quota ops = false ->
   quota_file (run_ops self ops w) = quota_file w) /\
  exists added, log (run_ops self ops w) = (log w ++ added)%list.
Proof.
  unfold run_ops. revert w.
  induction ops as [|o ops IH]; intros w; cbn [fold_left existsb].
  - repeat split. exists []. now rewrite app_nil_r.
  - destruct (IH (run_op self o w)) as (Hc & Hq & added & Hl).
    destruct (run_op_cursor_log self o w) as (Hc1 & added1 & Hl1).
    repeat split.
    + intros H. apply orb_false_iff in H as [Ho Hops].
      now rewrite (Hc Hops), (Hc1 Ho).
    + intros H. apply orb_false_iff in H as [Ho Hops].
      rewrite (Hq Hops). apply run_op_quota_file.
      intros u ->. discriminate Ho.
    + exists (added1 ++ added)%list. now rewrite Hl, Hl1, app_assoc.
Qed.

Lemma run_ops_frame_witness :
  cursor_file
    (run_ops (example_bot answering_client)
       [GetMentions; ValidateUser (UidInt 42);
        UpdateValidationData (UidInt 42); GetMentions;
        FetchTweets (UidInt 42); ReplyWithLimitReached "1501" "alice"]
       (store_world [])) = Holds "1500".
Proof.
  exact (proj1 (run_ops_frame (example_bot answering_client)
    [GetMentions; ValidateUser (UidInt 42);
     UpdateValidationData (UidInt 42); GetMentions;
     FetchTweets (UidInt 42); ReplyWithLimitReached "1501" "alice"]
    (store_world [])) eq_refl).
Defined.

(** ** Quota store *)















Lemma str_of_int_inj a b : Py.str_of_int a = Py.str_of_int b -> a = b.
Proof.
  intros H. pose proof (PyFacts.parse_int_str_of_int a) as Ha.
  rewrite H, PyFacts.parse_int_str_of_int in Ha. congruence.
Qed.

(** X9. Two different numeric user ids never share a record: a request
    recorded for the id [a] leaves the record of every other id [b] as it
    was, whatever the quota file holds, unless [json.dumps] raises
    [ValueError] and leaves the file empty. *)
Theorem numeric_users_do_not_interfere (a b : Z) (w : World) :
  a <> b ->
  fst (update_validation_data (UidInt a) w) <> Raise ValueError ->
  record_of (str_of_user_id (UidInt b))
    (quota_file (snd (update_validation_data (UidInt a) w))) =
  record_of (str_of_user_id (UidInt b)) (quota_file w).
Proof.
  intros Hab Hrun.
  destruct (update_validation_data_writes (UidInt a) w)
    as [(-> & _)|[(d & v & Hq & _ & _ & ->)|(H & _)]];
    [reflexivity| |contradiction].
  rewrite Hq. cbn [record_of str_of_user_id].
  apply dict_get_set_other. intros H. apply Hab. symmetry.
  now apply str_of_int_inj.
Qed.

Lemma numeric_users_do_not_interfere_witness :
  record_of "142"
    (quota_file (snd (update_validation_data (UidInt 42)
       (store_world [("42", JDict [("requests", JInt 4)]);
                     ("142", JDict [("requests", JInt 1)])])))) =
  Some (JDict [("requests", JInt 1)]).
Proof.
  refine (numeric_users_do_not_interfere 42 142
    (store_world [("42", JDict [("requests", JInt 4)]);
                  ("142", JDict [("requests", JInt 1)])]) _ _);
    intros H; discriminate H.
Defined.

(** ** Texts without capital letters *)

Lemma lower_char_not_upper c : is_upper (Py.lower_char c) = false.
Proof. destruct c as [[] [] [] [] [] [] [] []]; reflexivity. Qed.

Lemma lower_not_upper s : has_upper (Py.lower s) = false.
Proof.
  induction s as [|c s IH]; cbn [Py.lower has_upper]; [reflexivity|].
  now rewrite lower_char_not_upper, IH.
Qed.

Lemma has_upper_app a b : has_upper (a ++ b) = has_upper a || has_upper b.
Proof.
  induction a as [|c a IH]; cbn [append has_upper]; [reflexivity|].
  now rewrite IH, orb_assoc.
Qed.

(** What occurs in a text without capital letters has none. *)
Lemma contains_no_upper needle hay :
  Py.contains needle hay = true -> has_upper hay = false ->
  has_upper needle = false.
Proof.
  intros Hin Hhay. apply contains_iff in Hin as (before & after & ->).
  rewrite !has_upper_app in Hhay.
  apply orb_false_iff in Hhay as [_ H].
  now apply orb_false_iff in H as [H _].
Qed.

(** ** Input validation with one required text *)

(** X10. For a [str] as [required_input], [validate_input] returns [True]
    exactly when the text occurs in the lower-cased [str(tweet_text)], and
    [False] otherwise; the required text itself is not lower-cased, so one
    with a capital letter is never found, whatever the tweet says. *)
Theorem validate_input_required_text (s : string)
  (tweet_text : option string) :
  (validate_input (PStr s) tweet_text = Some true <->
   exists before after,
     Py.lower (str_of_opt tweet_text) = before ++ s ++ after) /\
  (validate_input (PStr s) tweet_text = Some true \/
   validate_input (PStr s) tweet_text = Some false) /\
  (has_upper s = true -> validate_input (PStr s) tweet_text = Some false).
Proof.
  unfold validate_input.
  destruct (Py.contains s (Py.lower (str_of_opt tweet_text))) eqn:Hin.
  - repeat split.
    + intros _. now apply contains_iff.
    + now left.
    + intros Hup.
      rewrite (contains_no_upper _ _ Hin (lower_not_upper _)) in Hup.
      discriminate Hup.
  - repeat split.
    + discriminate.
    + intros H. apply contains_iff in H. congruence.
    + now right.
Qed.

Lemma validate_input_required_text_witness :
  has_upper "Make Tweets Cloud" = true /\
  validate_input (PStr "Make Tweets Cloud")
                 (Some "@bot Make Tweets Cloud") = Some false.
Proof.
  split; [reflexivity|].
  exact (proj2 (proj2 (validate_input_required_text "Make Tweets Cloud"
                         (Some "@bot Make Tweets Cloud"))) eq_refl).
Defined.

(** ** Parameter extractor on any association list *)

Lemma In_dict_set {V} (k k' : string) (v v' : V) (d : list (string * V)) :
  In (k', v') (dict_set k v d) -> (k', v') = (k, v) \/ In (k', v') d.
Proof.
  induction d as [|[k0 v0] d IH]; cbn.
  - intros [H|[]]. left. now symmetry.
  - destruct (String.eqb_spec k k0) as [->|Hne]; cbn.
    + intros [H|H]; [left; now symmetry|right; now right].
    + intros [H|H]; [right; now left|].
      destruct (IH H) as [H'|H']; [now left|right; now right].
Qed.

Lemma dict_get_key {V} (k : string) (d : list (string * V)) :
  In k (dict_keys d) -> exists v, dict_get k d = Some v.
Proof.
  induction d as [|[k0 v0] d IH]; cbn; [contradiction|].
  intros [->|Hin].
  - rewrite String.eqb_refl. now exists v0.
  - destruct (String.eqb k k0); [now exists v0|now apply IH].
Qed.

Lemma scan_params_selected lowered params_dict keys params :
  (forall k, In k keys -> In k (dict_keys params_dict)) ->
  (forall kv, In kv params -> selected lowered params_dict kv) ->
  exists params',
    scan_params lowered params_dict keys params = Ok params' /\
    forall kv, In kv params' -> selected lowered params_dict kv.
Proof.
  revert params. induction keys as [|k keys IH]; intros params Hkeys Hsel.
  - now exists params.
  - cbn [scan_params].
    destruct (dict_get_key k params_dict (Hkeys k (or_introl eq_refl)))
      as [values Hvalues].
    rewrite Hvalues. apply IH.
    + intros k' Hin. apply Hkeys. now right.
    + rewrite scan_values_find.
      destruct (first_allowed lowered values) as [value|] eqn:Hfirst;
        [|exact Hsel].
      intros [k' v'] Hin.
      destruct (In_dict_set _ _ _ _ _ Hin) as [[= -> ->]|Hold];
        [|now apply Hsel].
      unfold first_allowed in Hfirst.
      apply find_some in Hfirst as [Hin' Hocc].
      split; [now exists values|exact Hocc].
Qed.

(** X11. On every text and every association list of allowed values
    (distinct keys or not), [get_params_from_tweet] returns; each value it
    returns is one of the allowed values listed for its parameter and
    occurs in the lower-cased text, so an allowed value with a capital
    letter is never returned. *)
Theorem get_params_from_tweet_selected (tweet_text : string)
  (params_dict : list (string * list string)) (w : World) :
  exists params,
    get_params_from_tweet tweet_text params_dict w =
    (Ok params, logged w INFO "Extracting parameters from tweet") /\
    forall param value,
      In (param, value) params ->
      (exists values,
          dict_get param params_dict = Some values /\ In value values) /\
      Py.contains value (Py.lower tweet_text) = true /\
      has_upper value = false.
Proof.
  destruct (scan_params_selected (Py.lower tweet_text) params_dict
              (dict_keys params_dict) [])
    as (params & Hrun & Hsel).
  - auto.
  - intros kv [].
  - exists params. split.
    + unfold get_params_from_tweet, bind, logging, lift_result. cbn zeta.
      now rewrite Hrun.
    + intros param value Hin.
      destruct (Hsel _ Hin) as [Hallowed Hocc]. cbn [fst snd] in *.
      repeat split; [exact Hallowed|exact Hocc|].
      exact (contains_no_upper _ _ Hocc (lower_not_upper _)).
Qed.

(** ** Tokenizer on any bot *)

(** X12. Tokenizing a list of posts in two batches and joining the
    results gives what tokenizing the whole list gives; the empty list
    gives no token. *)
Theorem preprocess_and_tokenize_tweets_app
  (casual_tokenize : string -> bool -> bool -> bool -> list string)
  (self : TwitterBot) (first second : list Tweet) :
  preprocess_and_tokenize_tweets casual_tokenize self (first ++ second) =
  (preprocess_and_tokenize_tweets casual_tokenize self first ++
   preprocess_and_tokenize_tweets casual_tokenize self second)%list /\
  preprocess_and_tokenize_tweets casual_tokenize self [] = [].
Proof.
  rewrite !preprocess_and_tokenize_tweets_flat_map.
  split; [apply flat_map_app|reflexivity].
Qed.

(** X13. A word is returned by [preprocess_and_tokenize_tweets] exactly
    when the tokenizer yields it for one of the posts and it is not among
    the stop words of the bot: no stop word is ever returned and no token
    is made up. *)
Theorem preprocess_and_tokenize_tweets_words
  (casual_tokenize : string -> bool -> bool -> bool -> list string)
  (self : TwitterBot) (tweets : list Tweet) (word : string) :
  In word (preprocess_and_tokenize_tweets casual_tokenize self tweets) <->
  exists tweet,
    In tweet tweets /\
    In word (casual_tokenize (text tweet) false true true) /\
    ~ In word (stop_words self).
Proof.
  rewrite preprocess_and_tokenize_tweets_flat_map, in_flat_map.
  assert (Hstop : str_in word (stop_words self) = false <->
                  ~ In word (stop_words self)).
  { unfold str_in. rewrite <- not_true_iff_false, existsb_exists. split.
    - intros H Hin. apply H. exists word. split; [exact Hin|].
      apply String.eqb_refl.
    - intros H (x & Hin & Heq). apply String.eqb_eq in Heq. now subst x. }
  split.
  - intros (tweet & Htweet & Hword). apply filter_In in Hword as [Htok Hkeep].
    exists tweet. repeat split; [exact Htweet|exact Htok|].
    apply Hstop. now apply negb_true_iff.
  - intros (tweet & Htweet & Htok & Hno). exists tweet.
    split; [exact Htweet|]. apply filter_In. split; [exact Htok|].
    apply negb_true_iff. now apply Hstop.
Qed.

(** ** Calls of the client that are not guarded *)

Lemma length_append a b :
  String.length (a ++ b) = (String.length a + String.length b)%nat.
Proof. induction a as [|c a IH]; cbn; [reflexivity|now rewrite IH]. Qed.

(** X14. [reply_with_limit_reached] posts one reply to the given tweet,
    with the fixed text around the screen name: 97 characters and the
    name.  An exception of the client is raised as it is, nothing is
    caught. *)
Theorem reply_with_limit_reached_posts (self : TwitterBot)
  (tweet_id user_screen_name : string) (w : World) :
  reply_with_limit_reached self tweet_id user_screen_name w =
  (create_tweet (api_v2 self) (limit_reached_text user_screen_name) tweet_id,
   logged w INFO "Replying with limit reached message") /\
  String.length (limit_reached_text user_screen_name) =
  (97 + String.length user_screen_name)%nat.
Proof.
  split.
  - unfold reply_with_limit_reached, bind, logging, lift_result,
      limit_reached_text, logged.
    cbn [append].
    destruct (create_tweet _ _ _) as [[]|e]; reflexivity.
  - unfold limit_reached_text. rewrite !length_append. cbn. lia.
Qed.

(** X15. [fetch_tweets] asks for at most 100 tweets of the user and
    hands back the data of the answer, which is [None] when the answer
    has none; an exception of the client is raised as it is (where
    [get_mentions] would return two empty lists), and the cursor file and
    the quota file are not touched. *)
Theorem fetch_tweets_outcome (self : TwitterBot) (u : user_id_t)
  (w : World) :
  fetch_tweets self u w =
  (match get_users_tweets (api_v2 self) u 100 with
   | Ok response => Ok (data response)
   | Raise e => Raise e
   end,
   logged w INFO "Fetching tweets") /\
  cursor_file (snd (fetch_tweets self u w)) = cursor_file w /\
  quota_file (snd (fetch_tweets self u w)) = quota_file w.
Proof.
  unfold fetch_tweets, bind, logging, lift_result, logged.
  destruct (get_users_tweets _ _ _) as [response|e]; repeat split.
Qed.
